(** * VreApp: the frame-presentation lifecycle of the renderer

    A shallow embedding of [src/VulkanRenderer/vre_app.cpp].  The member
    functions of [VreApp] become computations in a state-and-exception
    monad over the object's fields.  Everything the file calls but does
    not define (GLFW, the Vulkan entry points, [VreWindow], [VreSwapChain],
    [VrePipeline], [VreModel]) is the environment: every call is logged in
    a trace, and the answer of the environment is read from a [Driver],
    a record of functions of the trace so far. *)

From Stdlib Require Import ZArith QArith List Bool Lia.
Import ListNotations.
Local Open Scope Z_scope.

(** ** Scalars *)

Definition handle := Z.
Definition VK_NULL_HANDLE : handle := 0.

Definition VkResult := Z.
Definition VK_SUCCESS : VkResult := 0.
Definition VK_NOT_READY : VkResult := 1.
Definition VK_TIMEOUT : VkResult := 2.
Definition VK_ERROR_OUT_OF_HOST_MEMORY : VkResult := -1.
Definition VK_ERROR_OUT_OF_DEVICE_MEMORY : VkResult := -2.
Definition VK_ERROR_DEVICE_LOST : VkResult := -4.
Definition VK_ERROR_SURFACE_LOST_KHR : VkResult := -1000000000.
Definition VK_SUBOPTIMAL_KHR : VkResult := 1000001003.
Definition VK_ERROR_OUT_OF_DATE_KHR : VkResult := -1000001004.

Definition UINT32_MOD : Z := 2 ^ 32.

(** [static_cast<uint32_t>] of a [size_t]. *)
Definition to_uint32 (n : Z) : Z := n mod UINT32_MOD.

(** A [uint32_t] passed where an [int] is expected. *)
Definition int_of_uint32 (n : Z) : Z :=
  if n <? 2 ^ 31 then n else n - UINT32_MOD.

(** ** Single-precision floats

    A [float] is represented by the rational it denotes.  Only integers
    are ever converted, so rounding is the only thing to model. *)

Definition float := Q.

(** Conversion of a non-negative integer to binary32: 24 significant
    bits, round to nearest, ties to even. *)
Definition float_of_uint (n : Z) : float :=
  let e := Z.max 0 (Z.log2 n - 23) in
  let q := n / 2 ^ e in
  let r := n mod 2 ^ e in
  let q' :=
    if 2 * r <? 2 ^ e then q
    else if 2 ^ e <? 2 * r then q + 1
    else if Z.even q then q else q + 1 in
  inject_Z (q' * 2 ^ e).

(** Conversion of a float to [uint32_t]: truncation towards zero; the
    language leaves the result undefined when the truncated value does
    not fit, which is [None] here. *)
Definition uint32_of_float (x : float) : option Z :=
  let t := Z.quot (Qnum x) (Z.pos (Qden x)) in
  if (0 <=? t) && (t <? UINT32_MOD) then Some t else None.

(** The integer is one of the values of binary32. *)
Definition float_exact (n : Z) : bool :=
  Qeq_bool (float_of_uint n) (inject_Z n).

(** The literals of the source, as the binary32 values they denote. *)
Definition f_0_0 : float := 0 # 1.
Definition f_1_0 : float := 1 # 1.
Definition f_0_5 : float := 1 # 2.
Definition f_0_1 : float := 13421773 # 134217728.

(** ** Data *)

Record VkExtent2D := mkExtent { width : Z; height : Z }.
Record VkOffset2D := mkOffset { off_x : Z; off_y : Z }.
Record VkRect2D := mkRect { rect_offset : VkOffset2D; rect_extent : VkExtent2D }.

Record VkViewport := mkViewport {
  vp_x : float; vp_y : float;
  vp_width : float; vp_height : float;
  minDepth : float; maxDepth : float }.

Inductive VkClearValue :=
| ClearColor (r g b a : float)
| ClearDepthStencil (depth : float) (stencil : Z).

Inductive VkSubpassContents := VK_SUBPASS_CONTENTS_INLINE.

Record Vertex := mkVertex {
  position : float * float;
  color : float * float * float }.

(** The collaborators, as far as this file looks into them. *)
Record VreModel := mkModel {
  model_vertices : list Vertex;
  vertexBuffer : handle }.

Record VrePipeline := mkPipeline {
  graphicsPipeline : handle;
  cfg_renderPass : handle;
  cfg_pipelineLayout : handle }.

Record VreSwapChain := mkSwapChain {
  swapChainExtent : VkExtent2D;
  renderPass : handle;
  swapChainImages : list handle;
  swapChainFramebuffers : list handle }.

Definition imageCount (sc : VreSwapChain) : nat := length (swapChainImages sc).
Definition getRenderPass (sc : VreSwapChain) : handle := renderPass sc.
Definition getSwapChainExtent (sc : VreSwapChain) : VkExtent2D := swapChainExtent sc.

(** ** The trace of calls into the environment *)

Inductive Command :=
| vkCmdBeginRenderPass (rp fb : handle) (area : VkRect2D)
    (clearValues : list VkClearValue) (contents : VkSubpassContents)
| vkCmdSetViewport (first count : Z) (vp : VkViewport)
| vkCmdSetScissor (first count : Z) (sc : VkRect2D)
| pipeline_bind (p : VrePipeline)
| model_bind (m : VreModel)
| model_draw (m : VreModel)
| vkCmdEndRenderPass.

Inductive Event :=
| glfwPollEvents
| glfwWaitEvents
| shoudClose (b : bool)
| getExtent (e : VkExtent2D)
| wasWindowResized (b : bool)
| resetWindowResizedFlag
| vkDeviceWaitIdle
| vkCreatePipelineLayout (r : VkResult) (h : handle)
| new_VreModel (vs : list Vertex) (res : option VreModel)
| new_VreSwapChain (e : VkExtent2D) (previous : option VreSwapChain)
    (res : option VreSwapChain)
| new_VrePipeline (rp layout : handle) (res : option VrePipeline)
| vkAllocateCommandBuffers (count : Z) (r : VkResult)
| vkFreeCommandBuffers (count : option Z) (bufs : list handle)
| acquireNextImage (r : VkResult) (imageIndex : Z)
| submitCommandBuffers (cb : handle) (imageIndex : Z) (r : VkResult)
| vkBeginCommandBuffer (cb : handle) (r : VkResult)
| vkEndCommandBuffer (cb : handle) (r : VkResult)
| Cmd (cb : handle) (c : Command).

Definition Trace := list Event.

(** The environment answers as a function of everything that happened so
    far.  A constructor that answers [None] throws. *)
Record Driver := mkDriver {
  drv_extent : Trace -> VkExtent2D;
  drv_resize_callback : Trace -> bool;
  drv_shouldClose : Trace -> bool;
  drv_createPipelineLayout : Trace -> VkResult * handle;
  drv_newModel : Trace -> list Vertex -> option VreModel;
  drv_newSwapChain : Trace -> VkExtent2D -> option VreSwapChain -> option VreSwapChain;
  drv_newPipeline : Trace -> handle -> handle -> option VrePipeline;
  drv_allocate : Trace -> Z -> VkResult;
  drv_cb_handle : Trace -> nat -> handle;
  drv_acquire : Trace -> VkResult * Z;
  drv_submit : Trace -> handle -> Z -> VkResult;
  drv_begin : Trace -> handle -> VkResult;
  drv_end : Trace -> handle -> VkResult }.

(** ** State and outcomes *)

Record State := mkState {
  vreSwapChain : option VreSwapChain;
  vrePipeline : option VrePipeline;
  vreModel : option VreModel;
  pipelineLayout : handle;
  commandBuffers : list handle;
  framebufferResized : bool;
  trace : Trace }.

(** The [std::runtime_error]s of the file, and the exceptions that escape
    the constructors of the collaborators. *)
Inductive Error :=
| failed_to_create_pipeline_layout
| failed_to_allocate_command_buffers
| failed_to_begin_recording_command_buffer
| failed_to_record_command_buffer
| failed_to_acquire_swap_chain_image
| failed_to_present_swap_chain_image
| VreModel_threw
| VreSwapChain_threw
| VrePipeline_threw.

Inductive Assertion :=
| Cannot_create_pipeline_before_swap_chain
| Cannot_create_pipeline_before_pipeline_layout.

Inductive Stop :=
| Thrown (e : Error)
| AssertFailed (a : Assertion)
| Undefined
| Blocked.

Inductive Outcome (A : Type) :=
| Ret (a : A) (s : State)
| Halt (why : Stop) (s : State).
Arguments Ret {A} a s.
Arguments Halt {A} why s.

Definition state_of {A} (o : Outcome A) : State :=
  match o with Ret _ s => s | Halt _ s => s end.

Definition M (A : Type) := State -> Outcome A.

Definition ret {A} (a : A) : M A := fun s => Ret a s.
Definition bind {A B} (m : M A) (k : A -> M B) : M B :=
  fun s => match m s with
           | Ret a s' => k a s'
           | Halt w s' => Halt w s'
           end.
Definition halt {A} (w : Stop) : M A := fun s => Halt w s.
Definition throw {A} (e : Error) : M A := halt (Thrown e).
Definition get : M State := fun s => Ret s s.

Notation "x <- m ;; k" := (bind m (fun x => k))
  (at level 61, m at next level, right associativity).
Notation "m ;; k" := (bind m (fun _ => k))
  (at level 61, right associativity).

Definition log (e : Event) (s : State) : State :=
  mkState (vreSwapChain s) (vrePipeline s) (vreModel s) (pipelineLayout s)
          (commandBuffers s) (framebufferResized s) (trace s ++ [e]).
Definition set_vreSwapChain (v : option VreSwapChain) (s : State) : State :=
  mkState v (vrePipeline s) (vreModel s) (pipelineLayout s)
          (commandBuffers s) (framebufferResized s) (trace s).
Definition set_vrePipeline (v : option VrePipeline) (s : State) : State :=
  mkState (vreSwapChain s) v (vreModel s) (pipelineLayout s)
          (commandBuffers s) (framebufferResized s) (trace s).
Definition set_vreModel (v : option VreModel) (s : State) : State :=
  mkState (vreSwapChain s) (vrePipeline s) v (pipelineLayout s)
          (commandBuffers s) (framebufferResized s) (trace s).
Definition set_pipelineLayout (v : handle) (s : State) : State :=
  mkState (vreSwapChain s) (vrePipeline s) (vreModel s) v
          (commandBuffers s) (framebufferResized s) (trace s).
Definition set_commandBuffers (v : list handle) (s : State) : State :=
  mkState (vreSwapChain s) (vrePipeline s) (vreModel s) (pipelineLayout s)
          v (framebufferResized s) (trace s).
Definition set_framebufferResized (v : bool) (s : State) : State :=
  mkState (vreSwapChain s) (vrePipeline s) (vreModel s) (pipelineLayout s)
          (commandBuffers s) v (trace s).

Definition append_trace (d : Trace) (s : State) : State :=
  mkState (vreSwapChain s) (vrePipeline s) (vreModel s) (pipelineLayout s)
          (commandBuffers s) (framebufferResized s) (trace s ++ d).

Definition emit (e : Event) : M unit := fun s => Ret tt (log e s).
Definition modify (f : State -> State) : M unit := fun s => Ret tt (f s).

(** Dereferencing a [unique_ptr]: undefined when it is null. *)
Definition deref {A} (p : State -> option A) : M A :=
  fun s => match p s with Some a => Ret a s | None => Halt Undefined s end.

(** [v[i]] on a [std::vector]: undefined out of range. *)
Definition vector_at (v : list handle) (i : Z) : M handle :=
  if (0 <=? i) && (i <? Z.of_nat (length v))
  then ret (nth (Z.to_nat i) v VK_NULL_HANDLE)
  else halt Undefined.

(** [v.resize(n)]: keeps a prefix, pads with null handles. *)
Definition resize (n : nat) (v : list handle) : list handle :=
  firstn n v ++ repeat VK_NULL_HANDLE (n - length v).

(** ** The member functions of [VreApp] *)

Section VreApp.

Variable drv : Driver.

(** *** The environment's entry points *)

(** Event processing runs the window's resize callback, which can only
    raise the flag. *)
Definition process_events (e : Event) : M unit :=
  fun s =>
    let raised := drv_resize_callback drv (trace s) in
    Ret tt (log e (set_framebufferResized (framebufferResized s || raised) s)).

Definition window_getExtent : M VkExtent2D :=
  fun s => let e := drv_extent drv (trace s) in Ret e (log (getExtent e) s).

Definition window_shoudClose : M bool :=
  fun s => let b := drv_shouldClose drv (trace s) in Ret b (log (shoudClose b) s).

Definition window_wasWindowResized : M bool :=
  fun s => Ret (framebufferResized s) (log (wasWindowResized (framebufferResized s)) s).

Definition window_resetWindowResizedFlag : M unit :=
  fun s => Ret tt (log resetWindowResizedFlag (set_framebufferResized false s)).

Definition make_VreModel (vs : list Vertex) : M VreModel :=
  fun s =>
    let res := drv_newModel drv (trace s) vs in
    let s' := log (new_VreModel vs res) s in
    match res with Some m => Ret m s' | None => Halt (Thrown VreModel_threw) s' end.

Definition make_VreSwapChain (e : VkExtent2D) (previous : option VreSwapChain)
  : M VreSwapChain :=
  fun s =>
    let res := drv_newSwapChain drv (trace s) e previous in
    let s' := log (new_VreSwapChain e previous res) s in
    match res with Some sc => Ret sc s' | None => Halt (Thrown VreSwapChain_threw) s' end.

Definition make_VrePipeline (rp layout : handle) : M VrePipeline :=
  fun s =>
    let res := drv_newPipeline drv (trace s) rp layout in
    let s' := log (new_VrePipeline rp layout res) s in
    match res with Some p => Ret p s' | None => Halt (Thrown VrePipeline_threw) s' end.

Definition getFrameBuffer (sc : VreSwapChain) (index : Z) : M handle :=
  vector_at (swapChainFramebuffers sc) index.

(** The index is written into a [uint32_t]. *)
Definition swapchain_acquireNextImage : M (VkResult * Z) :=
  fun s =>
    let r := fst (drv_acquire drv (trace s)) in
    let i := to_uint32 (snd (drv_acquire drv (trace s))) in
    Ret (r, i) (log (acquireNextImage r i) s).

Definition swapchain_submitCommandBuffers (cb : handle) (imageIndex : Z) : M VkResult :=
  fun s =>
    let r := drv_submit drv (trace s) cb imageIndex in
    Ret r (log (submitCommandBuffers cb imageIndex r) s).

Definition call_vkBeginCommandBuffer (cb : handle) : M VkResult :=
  fun s => let r := drv_begin drv (trace s) cb in Ret r (log (vkBeginCommandBuffer cb r) s).

Definition call_vkEndCommandBuffer (cb : handle) : M VkResult :=
  fun s => let r := drv_end drv (trace s) cb in Ret r (log (vkEndCommandBuffer cb r) s).

(** *** [loadModels] *)

Definition triangle : list Vertex :=
  [ mkVertex (f_0_0, Qopp f_0_5) (f_1_0, f_0_0, f_0_0);
    mkVertex (f_0_5, f_0_5) (f_0_0, f_1_0, f_0_0);
    mkVertex (Qopp f_0_5, f_0_5) (f_0_0, f_0_0, f_1_0) ].

Definition loadModels : M unit :=
  m <- make_VreModel triangle ;;
  modify (set_vreModel (Some m)).

(** *** [createPipelineLayout] *)

Definition createPipelineLayout : M unit :=
  fun s =>
    let rh := drv_createPipelineLayout drv (trace s) in
    let s' := log (vkCreatePipelineLayout (fst rh) (snd rh))
                  (set_pipelineLayout (snd rh) s) in
    if negb (fst rh =? VK_SUCCESS)
    then Halt (Thrown failed_to_create_pipeline_layout) s'
    else Ret tt s'.

(** *** [createPipeline] *)

Definition assert (b : bool) (a : Assertion) : M unit :=
  if b then ret tt else halt (AssertFailed a).

Definition createPipeline : M unit :=
  s <- get ;;
  assert (match vreSwapChain s with Some _ => true | None => false end)
         Cannot_create_pipeline_before_swap_chain ;;
  assert (negb (pipelineLayout s =? VK_NULL_HANDLE))
         Cannot_create_pipeline_before_pipeline_layout ;;
  sc <- deref vreSwapChain ;;
  p <- make_VrePipeline (getRenderPass sc) (pipelineLayout s) ;;
  modify (set_vrePipeline (Some p)).

(** *** [createCommandBuffers] *)

(** A successful allocation writes [count] handles at the front of the
    array it is given. *)
Definition allocated (h : Trace) (count : nat) (v : list handle) : list handle :=
  map (drv_cb_handle drv h) (seq 0 count) ++ skipn count v.

Definition createCommandBuffers : M unit :=
  sc <- deref vreSwapChain ;;
  modify (fun s => set_commandBuffers (resize (imageCount sc) (commandBuffers s)) s) ;;
  s <- get ;;
  let commandBufferCount := to_uint32 (Z.of_nat (length (commandBuffers s))) in
  let r := drv_allocate drv (trace s) commandBufferCount in
  emit (vkAllocateCommandBuffers commandBufferCount r) ;;
  if negb (r =? VK_SUCCESS)
  then throw failed_to_allocate_command_buffers
  else modify (set_commandBuffers
                 (allocated (trace s) (Z.to_nat commandBufferCount) (commandBuffers s))).

(** *** [freeCommandBuffers] *)

(** The third argument of [vkFreeCommandBuffers] is a [uint32_t]; the
    source hands it [static_cast<float>(commandBuffers.size())]. *)
Definition free_count (size : Z) : option Z :=
  uint32_of_float (float_of_uint size).

Definition freeCommandBuffers : M unit :=
  s <- get ;;
  emit (vkFreeCommandBuffers (free_count (Z.of_nat (length (commandBuffers s))))
                             (commandBuffers s)) ;;
  modify (set_commandBuffers []).

(** *** [recordCommandBuffer] *)

Definition clearValues : list VkClearValue :=
  [ ClearColor f_0_1 f_0_1 f_0_1 f_1_0; ClearDepthStencil f_1_0 0 ].

Definition full_viewport (e : VkExtent2D) : VkViewport :=
  mkViewport f_0_0 f_0_0
             (float_of_uint (width e)) (float_of_uint (height e))
             f_0_0 f_1_0.

Definition recordCommandBuffer (imageIndex : Z) : M unit :=
  s <- get ;;
  cb <- vector_at (commandBuffers s) imageIndex ;;
  r <- call_vkBeginCommandBuffer cb ;;
  if negb (r =? VK_SUCCESS)
  then throw failed_to_begin_recording_command_buffer
  else
    sc <- deref vreSwapChain ;;
    fb <- getFrameBuffer sc imageIndex ;;
    let area := mkRect (mkOffset 0 0) (getSwapChainExtent sc) in
    emit (Cmd cb (vkCmdBeginRenderPass (getRenderPass sc) fb area clearValues
                                       VK_SUBPASS_CONTENTS_INLINE)) ;;
    let viewport := full_viewport (getSwapChainExtent sc) in
    let scissor := mkRect (mkOffset 0 0) (getSwapChainExtent sc) in
    emit (Cmd cb (vkCmdSetViewport 0 1 viewport)) ;;
    emit (Cmd cb (vkCmdSetScissor 0 1 scissor)) ;;
    p <- deref vrePipeline ;;
    emit (Cmd cb (pipeline_bind p)) ;;
    m <- deref vreModel ;;
    emit (Cmd cb (model_bind m)) ;;
    emit (Cmd cb (model_draw m)) ;;
    emit (Cmd cb vkCmdEndRenderPass) ;;
    r <- call_vkEndCommandBuffer cb ;;
    if negb (r =? VK_SUCCESS)
    then throw failed_to_record_command_buffer
    else ret tt.

(** *** [recreateSwapChain] *)

Definition zero_area (e : VkExtent2D) : bool :=
  (width e =? 0) || (height e =? 0).

(** The [while] loop; [fuel] bounds the number of iterations, and the
    loop is [Blocked] when it runs out. *)
Fixpoint wait_for_extent (fuel : nat) (extent : VkExtent2D) : M VkExtent2D :=
  if zero_area extent then
    match fuel with
    | O => halt Blocked
    | S fuel' =>
        extent' <- window_getExtent ;;
        process_events glfwWaitEvents ;;
        wait_for_extent fuel' extent'
    end
  else ret extent.

Definition recreateSwapChain (fuel : nat) : M unit :=
  extent <- window_getExtent ;;
  extent <- wait_for_extent fuel extent ;;
  emit vkDeviceWaitIdle ;;
  s <- get ;;
  match vreSwapChain s with
  | None =>
      sc <- make_VreSwapChain extent None ;;
      modify (set_vreSwapChain (Some sc))
  | Some old =>
      (* [std::move(vreSwapChain)]: the constructor's argument takes the
         old surface out of the member, which is null until assigned *)
      modify (set_vreSwapChain None) ;;
      sc <- make_VreSwapChain extent (Some old) ;;
      modify (set_vreSwapChain (Some sc)) ;;
      s <- get ;;
      if negb (Nat.eqb (imageCount sc) (length (commandBuffers s)))
      then freeCommandBuffers ;; createCommandBuffers
      else ret tt
  end ;;
  createPipeline.

(** *** [drawFrame] *)

Definition drawFrame (fuel : nat) : M unit :=
  _ <- deref vreSwapChain ;;
  ri <- swapchain_acquireNextImage ;;
  let result := fst ri in
  let imageIndex := snd ri in
  if result =? VK_ERROR_OUT_OF_DATE_KHR then
    recreateSwapChain fuel
  else if negb (result =? VK_SUCCESS) && negb (result =? VK_SUBOPTIMAL_KHR) then
    throw failed_to_acquire_swap_chain_image
  else
    recordCommandBuffer (int_of_uint32 imageIndex) ;;
    s <- get ;;
    cb <- vector_at (commandBuffers s) imageIndex ;;
    result <- swapchain_submitCommandBuffers cb imageIndex ;;
    stale <- (if (result =? VK_ERROR_OUT_OF_DATE_KHR) || (result =? VK_SUBOPTIMAL_KHR)
              then ret true
              else window_wasWindowResized) ;;
    if stale then
      window_resetWindowResizedFlag ;;
      recreateSwapChain fuel
    else if negb (result =? VK_SUCCESS) then
      throw failed_to_present_swap_chain_image
    else ret tt.

(** *** The constructor and [run] *)

Definition VreApp_ctor (fuel : nat) : M unit :=
  loadModels ;;
  createPipelineLayout ;;
  recreateSwapChain fuel ;;
  createCommandBuffers.

(** [frames] bounds the iterations of the frame loop. *)
Fixpoint run (frames fuel : nat) : M unit :=
  close <- window_shoudClose ;;
  if close then emit vkDeviceWaitIdle
  else match frames with
       | O => halt Blocked
       | S frames' =>
           process_events glfwPollEvents ;;
           drawFrame fuel ;;
           run frames' fuel
       end.

End VreApp.

(** The object before its constructor body runs: null pointers, an empty
    vector, nothing logged. *)
Definition fresh : State :=
  mkState None None None VK_NULL_HANDLE [] false [].

Definition program (drv : Driver) (frames fuel : nat) : Outcome unit :=
  (VreApp_ctor drv fuel ;; run drv frames fuel) fresh.

(** ** Reading the trace *)

Definition is_wait (e : Event) : bool :=
  match e with glfwWaitEvents => true | _ => false end.
Definition is_read (e : Event) : bool :=
  match e with getExtent _ => true | _ => false end.
Definition is_idle (e : Event) : bool :=
  match e with vkDeviceWaitIdle => true | _ => false end.
Definition is_free (e : Event) : bool :=
  match e with vkFreeCommandBuffers _ _ => true | _ => false end.
Definition is_allocate (e : Event) : bool :=
  match e with vkAllocateCommandBuffers _ _ => true | _ => false end.
Definition is_submit (e : Event) : bool :=
  match e with submitCommandBuffers _ _ _ => true | _ => false end.
Definition is_recording (e : Event) : bool :=
  match e with
  | vkBeginCommandBuffer _ _ | vkEndCommandBuffer _ _ | Cmd _ _ => true
  | _ => false
  end.

Definition is_acquire (e : Event) : bool :=
  match e with acquireNextImage _ _ => true | _ => false end.

(** What the waiting loop of [recreateSwapChain] says to the window. *)
Definition is_window_event (e : Event) : bool := is_read e || is_wait e.

(** What the rest of [recreateSwapChain] says to the device. *)
Definition is_rebuild_event (e : Event) : bool :=
  match e with
  | vkDeviceWaitIdle | new_VreSwapChain _ _ _ | new_VrePipeline _ _ _
  | vkAllocateCommandBuffers _ _ | vkFreeCommandBuffers _ _ => true
  | _ => false
  end.

Definition is_recreation_event (e : Event) : bool :=
  is_window_event e || is_rebuild_event e.

(** The calls that return buffers to the pool or take buffers from it. *)
Definition is_pool_event (ev : Event) : bool := is_free ev || is_allocate ev.

(** Events of a frame: recording into a command buffer or submitting one. *)
Definition is_frame_event (e : Event) : bool := is_recording e || is_submit e.

Definition count (p : Event -> bool) (t : Trace) : nat := length (filter p t).

(** The extents the surfaces were constructed at, in order. *)
Fixpoint constructions (t : Trace) : list VkExtent2D :=
  match t with
  | [] => []
  | new_VreSwapChain e _ _ :: t' => e :: constructions t'
  | _ :: t' => constructions t'
  end.

(** The commands recorded, in order. *)
Fixpoint commands (t : Trace) : list Command :=
  match t with
  | [] => []
  | Cmd _ c :: t' => c :: commands t'
  | _ :: t' => commands t'
  end.

(** What a call added to the trace. *)
Definition added (s s' : State) : Trace := skipn (length (trace s)) (trace s').

(** The fields of the [VreApp] object proper. *)
Definition same_object (s s' : State) : Prop :=
  vreSwapChain s' = vreSwapChain s /\
  vrePipeline s' = vrePipeline s /\
  vreModel s' = vreModel s /\
  pipelineLayout s' = pipelineLayout s /\
  commandBuffers s' = commandBuffers s.

(** ** Proof-side definitions *)

(** [recreateSwapChain] from the device-idle wait on, for the extent the
    loop ended with. *)
Definition after_wait (drv : Driver) (extent : VkExtent2D) : M unit :=
  emit vkDeviceWaitIdle ;;
  s <- get ;;
  match vreSwapChain s with
  | None =>
      sc <- make_VreSwapChain drv extent None ;;
      modify (set_vreSwapChain (Some sc))
  | Some old =>
      modify (set_vreSwapChain None) ;;
      sc <- make_VreSwapChain drv extent (Some old) ;;
      modify (set_vreSwapChain (Some sc)) ;;
      s <- get ;;
      if negb (Nat.eqb (imageCount sc) (length (commandBuffers s)))
      then freeCommandBuffers ;; createCommandBuffers drv
      else ret tt
  end ;;
  createPipeline drv.

(** What [drawFrame] is told by [acquireNextImage] in state [s]. *)
Definition acquired_status (drv : Driver) (s : State) : VkResult :=
  fst (drv_acquire drv (trace s)).
Definition acquired_index (drv : Driver) (s : State) : Z :=
  to_uint32 (snd (drv_acquire drv (trace s))).
Definition acquired (drv : Driver) (s : State) : State :=
  log (acquireNextImage (acquired_status drv s) (acquired_index drv s)) s.

(** [drawFrame] after an acquisition that reported success or
    suboptimal. *)
Definition after_acquire (drv : Driver) (fuel : nat) (imageIndex : Z) : M unit :=
  recordCommandBuffer drv (int_of_uint32 imageIndex) ;;
  s <- get ;;
  cb <- vector_at (commandBuffers s) imageIndex ;;
  result <- swapchain_submitCommandBuffers drv cb imageIndex ;;
  stale <- (if (result =? VK_ERROR_OUT_OF_DATE_KHR) || (result =? VK_SUBOPTIMAL_KHR)
            then ret true
            else window_wasWindowResized) ;;
  if stale then
    window_resetWindowResizedFlag ;;
    recreateSwapChain drv fuel
  else if negb (result =? VK_SUCCESS) then
    throw failed_to_present_swap_chain_image
  else ret tt.

(** The command buffer of the image [drawFrame] acquires in state [s],
    and what the submission of the frame reports once the recording has
    led to state [s2]. *)
Definition frame_buffer (drv : Driver) (s : State) : handle :=
  nth (Z.to_nat (acquired_index drv s)) (commandBuffers s) VK_NULL_HANDLE.
Definition submitted (drv : Driver) (s s2 : State) : VkResult :=
  drv_submit drv (trace s2) (frame_buffer drv s) (acquired_index drv s).

(** The acquisition let the frame go on. *)
Definition acquire_ok (r : VkResult) : bool :=
  (r =? VK_SUCCESS) || (r =? VK_SUBOPTIMAL_KHR).

(** [drawFrame] after the submission reported [result]. *)
Definition after_submit (drv : Driver) (fuel : nat) (result : VkResult) : M unit :=
  stale <- (if (result =? VK_ERROR_OUT_OF_DATE_KHR) || (result =? VK_SUBOPTIMAL_KHR)
            then ret true
            else window_wasWindowResized) ;;
  if stale then
    window_resetWindowResizedFlag ;;
    recreateSwapChain drv fuel
  else if negb (result =? VK_SUCCESS) then
    throw failed_to_present_swap_chain_image
  else ret tt.

(** The submission result is one of the two that mean a stale surface. *)
Definition stale_result (r : VkResult) : bool :=
  (r =? VK_ERROR_OUT_OF_DATE_KHR) || (r =? VK_SUBOPTIMAL_KHR).

(** What [drawFrame] says to the window between the submission and the
    recreation: it asks for the resize flag only if the result does not
    already settle the matter. *)
Definition flag_events (r : VkResult) : Trace :=
  (if stale_result r then [] else [wasWindowResized true])
    ++ [resetWindowResizedFlag].

(** The commands of one frame, for a render pass, a framebuffer, an
    extent, a pipeline and a model. *)
Definition frame_commands (rp fb : handle) (extent : VkExtent2D)
           (p : VrePipeline) (m : VreModel) : list Command :=
  [ vkCmdBeginRenderPass rp fb (mkRect (mkOffset 0 0) extent) clearValues
                         VK_SUBPASS_CONTENTS_INLINE;
    vkCmdSetViewport 0 1 (full_viewport extent);
    vkCmdSetScissor 0 1 (mkRect (mkOffset 0 0) extent);
    pipeline_bind p;
    model_bind m;
    model_draw m;
    vkCmdEndRenderPass ].

(** The events of one successful recording into [cb]. *)
Definition recording (cb : handle) (cs : list Command) : Trace :=
  vkBeginCommandBuffer cb VK_SUCCESS :: map (Cmd cb) cs
    ++ [vkEndCommandBuffer cb VK_SUCCESS].

(** The window of the resize test: zero-sized until [N] more blocking
    waits have completed (counted from [w0] on), (800,600) afterwards. *)
Definition simulated_window (drv : Driver) (w0 N : nat) : Prop :=
  forall h, drv_extent drv h =
            if (count is_wait h <? w0 + N)%nat then mkExtent 0 0 else mkExtent 800 600.

(** What [recreateSwapChain] can throw. *)
Definition recreation_error (e : Error) : bool :=
  match e with
  | VreSwapChain_threw | VrePipeline_threw | failed_to_allocate_command_buffers => true
  | _ => false
  end.

(** The object as the frame loop needs it: every pointer set, a
    pipeline layout, and one command buffer per image. *)
Definition ready (s : State) : Prop :=
  exists sc p m,
    vreSwapChain s = Some sc /\ vrePipeline s = Some p /\ vreModel s = Some m /\
    pipelineLayout s <> VK_NULL_HANDLE /\
    length (commandBuffers s) = imageCount sc.

(** [vkCreatePipelineLayout] hands out a handle when it succeeds. *)
Definition layout_contract (drv : Driver) : Prop :=
  forall h, fst (drv_createPipelineLayout drv h) = VK_SUCCESS ->
            snd (drv_createPipelineLayout drv h) <> VK_NULL_HANDLE.

(** The errors [drawFrame] raises itself or through the recording. *)
Definition frame_error (e : Error) : bool :=
  match e with
  | failed_to_acquire_swap_chain_image
  | failed_to_begin_recording_command_buffer
  | failed_to_record_command_buffer
  | failed_to_present_swap_chain_image => true
  | _ => false
  end.

(** ** Scenarios *)

Definition surface (e : VkExtent2D) (images : nat) : VreSwapChain :=
  mkSwapChain e 21 (map Z.of_nat (seq 31 images)) (map Z.of_nat (seq 41 images)).

(** A well-behaved environment: a 640x480 window, three images per
    surface, every call succeeds, image 0 is acquired. *)
Definition quiet : Driver :=
  mkDriver
    (fun _ => mkExtent 640 480)
    (fun _ => false)
    (fun _ => false)
    (fun _ => (VK_SUCCESS, 7))
    (fun _ vs => Some (mkModel vs 11))
    (fun _ e _ => Some (surface e 3))
    (fun _ rp layout => Some (mkPipeline 51 rp layout))
    (fun _ _ => VK_SUCCESS)
    (fun _ i => 100 + Z.of_nat i)
    (fun _ => (VK_SUCCESS, 0))
    (fun _ _ _ => VK_SUCCESS)
    (fun _ _ => VK_SUCCESS)
    (fun _ _ => VK_SUCCESS).

Definition with_extent (f : Trace -> VkExtent2D) (d : Driver) : Driver :=
  mkDriver f (drv_resize_callback d) (drv_shouldClose d)
    (drv_createPipelineLayout d) (drv_newModel d) (drv_newSwapChain d)
    (drv_newPipeline d) (drv_allocate d) (drv_cb_handle d) (drv_acquire d)
    (drv_submit d) (drv_begin d) (drv_end d).

Definition with_newSwapChain
  (f : Trace -> VkExtent2D -> option VreSwapChain -> option VreSwapChain)
  (d : Driver) : Driver :=
  mkDriver (drv_extent d) (drv_resize_callback d) (drv_shouldClose d)
    (drv_createPipelineLayout d) (drv_newModel d) f
    (drv_newPipeline d) (drv_allocate d) (drv_cb_handle d) (drv_acquire d)
    (drv_submit d) (drv_begin d) (drv_end d).

Definition with_allocate (f : Trace -> Z -> VkResult) (d : Driver) : Driver :=
  mkDriver (drv_extent d) (drv_resize_callback d) (drv_shouldClose d)
    (drv_createPipelineLayout d) (drv_newModel d) (drv_newSwapChain d)
    (drv_newPipeline d) f (drv_cb_handle d) (drv_acquire d)
    (drv_submit d) (drv_begin d) (drv_end d).

Definition with_acquire (f : Trace -> VkResult * Z) (d : Driver) : Driver :=
  mkDriver (drv_extent d) (drv_resize_callback d) (drv_shouldClose d)
    (drv_createPipelineLayout d) (drv_newModel d) (drv_newSwapChain d)
    (drv_newPipeline d) (drv_allocate d) (drv_cb_handle d) f
    (drv_submit d) (drv_begin d) (drv_end d).

Definition with_submit (f : Trace -> handle -> Z -> VkResult) (d : Driver) : Driver :=
  mkDriver (drv_extent d) (drv_resize_callback d) (drv_shouldClose d)
    (drv_createPipelineLayout d) (drv_newModel d) (drv_newSwapChain d)
    (drv_newPipeline d) (drv_allocate d) (drv_cb_handle d) (drv_acquire d)
    f (drv_begin d) (drv_end d).

(** The resize test's window, transitioning after [N] waits. *)
Definition minimised (N : nat) : Driver :=
  with_extent
    (fun h => if (count is_wait h <? N)%nat then mkExtent 0 0 else mkExtent 800 600)
    quiet.

(** The driver hands out two images from now on. *)
Definition two_images : Driver :=
  with_newSwapChain (fun _ e _ => Some (surface e 2)) quiet.

(** An application in the middle of its run: a 640x480 surface of three
    images, three command buffers, nothing logged yet. *)
Definition running : State :=
  mkState (Some (surface (mkExtent 640 480) 3))
          (Some (mkPipeline 51 21 7))
          (Some (mkModel triangle 11))
          7 [100; 101; 102] false [].

(** The object in the middle of its constructor: model loaded, pipeline
    layout created, no surface yet. *)
Definition laid_out : State :=
  mkState None None (Some (mkModel triangle 11)) 7 [] false [].

(** Every acquisition reports an out-of-date surface. *)
Definition stale_acquire (d : Driver) : Driver :=
  with_acquire (fun _ => (VK_ERROR_OUT_OF_DATE_KHR, 0)) d.

(** The acquisition fails with a lost device. *)
Definition lost_acquire (d : Driver) : Driver :=
  with_acquire (fun _ => (VK_ERROR_DEVICE_LOST, 0)) d.

(** Every submission reports a suboptimal surface. *)
Definition suboptimal_submit (d : Driver) : Driver :=
  with_submit (fun _ _ _ => VK_SUBOPTIMAL_KHR) d.

(** Every submission fails with a lost device. *)
Definition lost_submit (d : Driver) : Driver :=
  with_submit (fun _ _ _ => VK_ERROR_DEVICE_LOST) d.

(** The pool has no memory left. *)
Definition out_of_memory (d : Driver) : Driver :=
  with_allocate (fun _ _ => VK_ERROR_OUT_OF_DEVICE_MEMORY) d.

(** [running] with a resize notification pending. *)
Definition resized : State := set_framebufferResized true running.

(** The window asks to close once [n] frames have been polled for. *)
Definition closing_after (n : nat) (d : Driver) : Driver :=
  mkDriver (drv_extent d) (drv_resize_callback d)
    (fun h => (n <=? count (fun ev => match ev with glfwPollEvents => true | _ => false end) h)%nat)
    (drv_createPipelineLayout d) (drv_newModel d) (drv_newSwapChain d)
    (drv_newPipeline d) (drv_allocate d) (drv_cb_handle d) (drv_acquire d)
    (drv_submit d) (drv_begin d) (drv_end d).

(** ** Conversions *)

Lemma float_of_uint_small (n : Z) :
  0 <= n < 2 ^ 24 -> float_of_uint n = inject_Z n.
Proof.
  intros [H0 H1]. unfold float_of_uint.
  assert (He : Z.max 0 (Z.log2 n - 23) = 0).
  { destruct (Z.eq_dec n 0) as [->|Hn]; [reflexivity|].
    assert (Z.log2 n < 24) by (apply Z.log2_lt_pow2; lia). lia. }
  rewrite He. change (2 ^ 0) with 1.
  rewrite Z.mod_1_r, Z.div_1_r. simpl (2 * 0 <? 1).
  cbv iota. now rewrite Z.mul_1_r.
Qed.

Lemma float_exact_small (n : Z) : 0 <= n < 2 ^ 24 -> float_exact n = true.
Proof.
  intros H. unfold float_exact. rewrite (float_of_uint_small n H).
  apply Qeq_bool_iff. reflexivity.
Qed.

Lemma float_exact_value (n : Z) :
  float_exact n = true -> float_of_uint n = inject_Z n.
Proof.
  unfold float_exact, float_of_uint.
  set (v := _ * 2 ^ _). intros H.
  apply Qeq_bool_iff in H. unfold Qeq, inject_Z in H.
  cbn [Qnum Qden] in H. f_equal. lia.
Qed.

Lemma free_count_exact (n : Z) :
  0 <= n < UINT32_MOD -> float_exact n = true -> free_count n = Some n.
Proof.
  intros Hn He. unfold free_count. rewrite (float_exact_value n He).
  unfold uint32_of_float. simpl. rewrite Z.quot_1_r.
  destruct (Z.leb_spec 0 n); [|lia].
  destruct (Z.ltb_spec n UINT32_MOD); [|lia]. reflexivity.
Qed.

(** ** [freeCommandBuffers] *)

Lemma freeCommandBuffers_eq (s : State) :
  freeCommandBuffers s =
  Ret tt (set_commandBuffers []
            (log (vkFreeCommandBuffers
                    (free_count (Z.of_nat (length (commandBuffers s))))
                    (commandBuffers s)) s)).
Proof. reflexivity. Qed.

(** Where the size leaves the range of the 32-bit count the round trip
    has no result: 2^32 is a value of binary32, and no count equals it. *)
Lemma free_count_4294967296 :
  float_exact 4294967296 = true /\ free_count 4294967296 <> Some 4294967296.
Proof. split; [reflexivity | vm_compute; discriminate]. Qed.

(** X1: for a set whose size is below 2^24, or more generally is a
    value of binary32 below 2^32, the count handed to
    [vkFreeCommandBuffers] after the round trip through [float] is the
    size of the set, and the call returns with the set empty. *)
Theorem freeCommandBuffers_count (s : State) :
  Z.of_nat (length (commandBuffers s)) < 2 ^ 24 \/
  (float_exact (Z.of_nat (length (commandBuffers s))) = true /\
   Z.of_nat (length (commandBuffers s)) < UINT32_MOD) ->
  freeCommandBuffers s =
  Ret tt (set_commandBuffers []
            (log (vkFreeCommandBuffers
                    (Some (Z.of_nat (length (commandBuffers s))))
                    (commandBuffers s)) s)).
Proof.
  intros H. rewrite freeCommandBuffers_eq.
  assert (Hc : free_count (Z.of_nat (length (commandBuffers s)))
               = Some (Z.of_nat (length (commandBuffers s)))).
  { destruct H as [H | [He H]].
    - apply free_count_exact.
      + unfold UINT32_MOD. lia.
      + apply float_exact_small. lia.
    - apply free_count_exact; [lia | exact He]. }
  now rewrite Hc.
Qed.

Lemma freeCommandBuffers_count_witness :
  freeCommandBuffers running =
  Ret tt (set_commandBuffers []
            (log (vkFreeCommandBuffers (Some 3) [100; 101; 102]) running)).
Proof.
  apply (freeCommandBuffers_count running). left. simpl. lia.
Defined.

(** C6: [freeCommandBuffers] always returns, and returns with the set
    empty; called again it returns again, having handed the pool zero
    buffers, and leaves every field of the object as the first call
    left it. *)
Theorem freeCommandBuffers_twice (s : State) :
  exists s1 s2,
    freeCommandBuffers s = Ret tt s1 /\
    commandBuffers s1 = [] /\
    freeCommandBuffers s1 = Ret tt s2 /\
    s2 = log (vkFreeCommandBuffers (Some 0) []) s1 /\
    commandBuffers s2 = [] /\
    same_object s1 s2.
Proof.
  eexists. eexists. split; [apply freeCommandBuffers_eq|].
  split; [reflexivity|].
  split; [apply freeCommandBuffers_eq|].
  repeat split.
Qed.

(** ** Vectors *)

Lemma resize_length (n : nat) (v : list handle) : length (resize n v) = n.
Proof.
  unfold resize. rewrite length_app, length_firstn, repeat_length. lia.
Qed.

Lemma to_uint32_le (n : nat) : (Z.to_nat (to_uint32 (Z.of_nat n)) <= n)%nat.
Proof.
  unfold to_uint32, UINT32_MOD.
  assert (0 <= Z.of_nat n mod 2 ^ 32 <= Z.of_nat n).
  { split; [apply Z.mod_pos_bound; lia | apply Z.mod_le; lia]. }
  lia.
Qed.

Lemma allocated_length (drv : Driver) (h : Trace) (c : nat) (v : list handle) :
  (c <= length v)%nat -> length (allocated drv h c v) = length v.
Proof.
  intros H. unfold allocated.
  rewrite length_app, length_map, length_seq, length_skipn. lia.
Qed.

(** ** The waiting loop *)

Lemma recreateSwapChain_unfold (drv : Driver) (fuel : nat) (s : State) :
  recreateSwapChain drv fuel s =
  match wait_for_extent drv fuel (drv_extent drv (trace s))
          (log (getExtent (drv_extent drv (trace s))) s) with
  | Ret extent s1 => after_wait drv extent s1
  | Halt w s1 => Halt w s1
  end.
Proof. reflexivity. Qed.

Lemma same_object_refl (s : State) : same_object s s.
Proof. repeat split. Qed.

Lemma same_object_trans (s1 s2 s3 : State) :
  same_object s1 s2 -> same_object s2 s3 -> same_object s1 s3.
Proof.
  unfold same_object. intros (a & b & c & d & e) (a' & b' & c' & d' & e').
  repeat split; congruence.
Qed.

(** The loop only talks to the window; it ends [Blocked] or with an
    extent of non-zero area. *)
Lemma wait_for_extent_spec (drv : Driver) (fuel : nat) :
  forall (e : VkExtent2D) (s : State),
  exists ws,
    trace (state_of (wait_for_extent drv fuel e s)) = trace s ++ ws /\
    Forall (fun ev => is_window_event ev = true) ws /\
    same_object s (state_of (wait_for_extent drv fuel e s)) /\
    match wait_for_extent drv fuel e s with
    | Ret e' _ => zero_area e' = false
    | Halt w _ => w = Blocked
    end.
Proof.
  induction fuel as [|fuel IH]; intros e s; simpl;
    destruct (zero_area e) eqn:Hz.
  - exists []. rewrite app_nil_r. repeat split; auto.
  - exists []. rewrite app_nil_r. repeat split; auto.
  - unfold bind, window_getExtent, process_events.
    match goal with |- context [wait_for_extent drv fuel ?e' ?s'] =>
      destruct (IH e' s') as (ws & Ht & Hf & Ho & Hm);
      exists (getExtent e' :: glfwWaitEvents :: ws)
    end.
    split; [|split; [|split]].
    + rewrite Ht. simpl. now rewrite <- !app_assoc.
    + repeat constructor. exact Hf.
    + eapply same_object_trans; [|exact Ho]. repeat split.
    + exact Hm.
  - exists []. rewrite app_nil_r. repeat split; auto.
Qed.

(** ** [recreateSwapChain] *)

Ltac unfold_ops :=
  unfold after_wait, createPipeline, createCommandBuffers, freeCommandBuffers,
    make_VreSwapChain, make_VrePipeline, assert, deref, bind, emit, modify,
    get, ret, halt, throw in *.

(** Case analysis on an innermost scrutinee. *)
Ltac innermost x :=
  lazymatch x with
  | context [match _ with _ => _ end] => fail
  | _ => idtac
  end.

Ltac split_match_in H :=
  repeat match type of H with
         | context [match ?x with _ => _ end] =>
             innermost x; destruct x eqn:?; simpl in H
         end.

Ltac split_match :=
  repeat match goal with
         | |- context [match ?x with _ => _ end] =>
             innermost x; destruct x eqn:?; simpl
         end.

(** The same, keeping every state a flat record, whose fields are read
    in one step. *)
Ltac munfold :=
  unfold after_wait, after_acquire, drawFrame, recordCommandBuffer,
    createPipeline, createCommandBuffers, freeCommandBuffers, createPipelineLayout,
    loadModels, getFrameBuffer, vector_at,
    make_VreModel, make_VreSwapChain, make_VrePipeline,
    swapchain_acquireNextImage, swapchain_submitCommandBuffers,
    call_vkBeginCommandBuffer, call_vkEndCommandBuffer,
    window_wasWindowResized, window_resetWindowResizedFlag, window_getExtent,
    window_shoudClose, process_events,
    assert, deref, bind, emit, modify, get, ret, throw, halt in *.

Ltac mflat :=
  unfold log, append_trace, set_vreSwapChain, set_vrePipeline, set_vreModel,
    set_pipelineLayout, set_commandBuffers, set_framebufferResized in *;
  cbn [vreSwapChain vrePipeline vreModel pipelineLayout commandBuffers
       framebufferResized trace state_of fst snd] in *.

Ltac msplit :=
  repeat match goal with
         | |- context [match ?x with _ => _ end] =>
             innermost x; destruct x eqn:?; mflat
         end.

(** C1 as stated fails in the fresh-construction branch: in the
    constructor, after the pipeline layout is created, the call builds a
    surface of three images and returns with no command buffer. *)
Lemma recreateSwapChain_fresh_no_buffers :
  exists s' sc,
    recreateSwapChain quiet 0 laid_out = Ret tt s' /\
    vreSwapChain s' = Some sc /\
    length (commandBuffers s') <> imageCount sc.
Proof.
  eexists. eexists. split; [reflexivity|]. split; [reflexivity|].
  vm_compute. discriminate.
Qed.

(** C1 (amended): after a successful [recreateSwapChain] there is a
    surface; if the call replaced an existing surface, the command
    buffer set has as many buffers as the new surface has images; if
    there was none (the fresh-construction branch), the command buffer
    set is as it was before the call. *)
Theorem recreateSwapChain_buffers (drv : Driver) (fuel : nat) (s s' : State) :
  recreateSwapChain drv fuel s = Ret tt s' ->
  exists sc,
    vreSwapChain s' = Some sc /\
    match vreSwapChain s with
    | Some _ => length (commandBuffers s') = imageCount sc
    | None => commandBuffers s' = commandBuffers s
    end.
Proof.
  rewrite recreateSwapChain_unfold.
  match goal with |- context [wait_for_extent drv fuel ?e ?s0] =>
    destruct (wait_for_extent_spec drv fuel e s0) as (ws & _ & _ & Ho & _);
    destruct (wait_for_extent drv fuel e s0) as [e1 s1 | w s1]
  end; [|discriminate].
  simpl in Ho. destruct Ho as (Hsc & _ & _ & _ & Hcb). simpl in Hsc, Hcb.
  rewrite <- Hsc, <- Hcb. clear Hsc Hcb.
  intros H. unfold_ops. simpl in H. split_match_in H; try discriminate;
    inversion H; subst s'; clear H; simpl; eexists; split; try reflexivity.
  - rewrite allocated_length by apply to_uint32_le. apply resize_length.
  - symmetry. apply Nat.eqb_eq.
    now destruct (imageCount _ =? length _)%nat.
Qed.

Lemma recreateSwapChain_buffers_witness :
  exists sc,
    vreSwapChain (state_of (recreateSwapChain two_images 0 running)) = Some sc /\
    length (commandBuffers (state_of (recreateSwapChain two_images 0 running)))
    = imageCount sc.
Proof.
  apply (recreateSwapChain_buffers two_images 0 running). vm_compute. reflexivity.
Defined.

Lemma added_app (s s' : State) (d : Trace) :
  trace s' = trace s ++ d -> added s s' = d.
Proof.
  intros H. unfold added. rewrite H, skipn_app, skipn_all, Nat.sub_diag.
  reflexivity.
Qed.

Lemma count_app (p : Event -> bool) (t u : Trace) :
  count p (t ++ u) = (count p t + count p u)%nat.
Proof. unfold count. now rewrite filter_app, length_app. Qed.

Lemma constructions_app (t u : Trace) :
  constructions (t ++ u) = constructions t ++ constructions u.
Proof.
  induction t as [|ev t IH]; [reflexivity|].
  destruct ev; simpl; rewrite ?IH; reflexivity.
Qed.

Lemma commands_app (t u : Trace) : commands (t ++ u) = commands t ++ commands u.
Proof.
  induction t as [|ev t IH]; [reflexivity|].
  destruct ev; simpl; rewrite ?IH; reflexivity.
Qed.

Lemma filter_none (p q : Event -> bool) (t : Trace) :
  (forall ev, q ev = true -> p ev = false) ->
  Forall (fun ev => q ev = true) t -> filter p t = [].
Proof.
  intros Hpq. induction 1 as [|ev t Hq _ IH]; [reflexivity|].
  simpl. now rewrite (Hpq ev Hq).
Qed.

Lemma window_no_constructions (t : Trace) :
  Forall (fun ev => is_window_event ev = true) t -> constructions t = [].
Proof.
  induction 1 as [|ev t Hq _ IH]; [reflexivity|].
  destruct ev; try discriminate; exact IH.
Qed.

Lemma recreation_no_commands (t : Trace) :
  Forall (fun ev => is_recreation_event ev = true) t -> commands t = [].
Proof.
  induction 1 as [|ev t Hq _ IH]; [reflexivity|].
  destruct ev; try discriminate; exact IH.
Qed.

Lemma window_is_recreation (t : Trace) :
  Forall (fun ev => is_window_event ev = true) t ->
  Forall (fun ev => is_recreation_event ev = true) t.
Proof.
  apply Forall_impl. intros ev H. unfold is_recreation_event. now rewrite H.
Qed.

(** From the device-idle wait on, the call says nothing to the window,
    constructs exactly one surface, at the extent it was given, and
    neither blocks nor fails for a reason of the frame. *)
Lemma after_wait_events (drv : Driver) (e : VkExtent2D) (s : State) :
  exists d,
    trace (state_of (after_wait drv e s)) = trace s ++ d /\
    Forall (fun ev => is_rebuild_event ev = true) d /\
    constructions d = [e] /\
    count is_idle d = 1%nat /\
    match after_wait drv e s with
    | Ret _ _ => True
    | Halt (Thrown err) _ => recreation_error err = true
    | Halt (AssertFailed _) _ => pipelineLayout s = VK_NULL_HANDLE
    | Halt Undefined _ => False
    | Halt Blocked _ => False
    end.
Proof.
  munfold. mflat. msplit;
    (eexists; split; [rewrite <- ?app_assoc; cbn [app]; reflexivity|]);
    repeat split; repeat constructor; try discriminate.
  all: apply Z.eqb_eq; now destruct (pipelineLayout s =? VK_NULL_HANDLE).
Qed.

Lemma recreateSwapChain_events (drv : Driver) (fuel : nat) (s : State) :
  exists d,
    trace (state_of (recreateSwapChain drv fuel s)) = trace s ++ d /\
    Forall (fun ev => is_recreation_event ev = true) d /\
    Forall (fun e => zero_area e = false) (constructions d) /\
    (length (constructions d) <= 1)%nat /\
    match recreateSwapChain drv fuel s with
    | Ret _ _ => length (constructions d) = 1%nat /\ count is_idle d = 1%nat
    | Halt (Thrown err) _ => recreation_error err = true
    | Halt (AssertFailed _) _ => pipelineLayout s = VK_NULL_HANDLE
    | Halt Undefined _ => False
    | Halt Blocked _ => True
    end.
Proof.
  rewrite recreateSwapChain_unfold.
  match goal with |- context [wait_for_extent drv fuel ?e ?s0] =>
    destruct (wait_for_extent_spec drv fuel e s0) as (ws & Ht & Hw & Ho & Hm);
    destruct (wait_for_extent drv fuel e s0) as [e1 s1 | w s1]
  end; simpl in Ht, Ho.
  - destruct (after_wait_events drv e1 s1) as (d & Hd & Hr & Hc & Hi & Hk).
    exists (getExtent (drv_extent drv (trace s)) :: ws ++ d).
    assert (Hcs : constructions (getExtent (drv_extent drv (trace s)) :: ws ++ d)
                  = [e1]).
    { simpl. now rewrite constructions_app, (window_no_constructions ws Hw), Hc. }
    rewrite Hcs.
    split; [|split; [|split; [|split]]].
    + rewrite Hd, Ht. simpl. now rewrite <- !app_assoc.
    + constructor; [reflexivity|]. apply Forall_app. split.
      * now apply window_is_recreation.
      * revert Hr. apply Forall_impl. intros ev H.
        unfold is_recreation_event. rewrite H. apply orb_true_r.
    + now constructor.
    + simpl. lia.
    + assert (Hl : pipelineLayout s1 = pipelineLayout s) by apply Ho.
      destruct (after_wait drv e1 s1) as [[] s2 | [err| a | |] s2];
        try exact Hk; try congruence; try (exfalso; exact Hk).
      split; [reflexivity|].
      change (getExtent (drv_extent drv (trace s)) :: ws ++ d)
        with ([getExtent (drv_extent drv (trace s))] ++ ws ++ d).
      rewrite !count_app, Hi. unfold count at 2.
      rewrite (filter_none is_idle is_window_event ws); [reflexivity| |exact Hw].
      intros ev; destruct ev; cbv; intro; congruence.
  - exists (getExtent (drv_extent drv (trace s)) :: ws).
    assert (Hcs : constructions (getExtent (drv_extent drv (trace s)) :: ws) = []).
    { simpl. apply (window_no_constructions ws Hw). }
    rewrite Hcs. subst w. simpl. split; [|split; [|split; [|split]]]; trivial.
    + rewrite Ht. simpl. now rewrite <- !app_assoc.
    + constructor; [reflexivity|]. now apply window_is_recreation.
    + lia.
Qed.

Lemma wait_for_extent_done (drv : Driver) (fuel : nat) (e : VkExtent2D) (s : State) :
  zero_area e = false -> wait_for_extent drv fuel e s = Ret e s.
Proof. intros H. destruct fuel; simpl; now rewrite H. Qed.

(** On the simulated window, with [k] waits to go before the transition,
    the loop reads and waits [k + 1] times and ends with (800,600). *)
Lemma wait_for_extent_simulated (drv : Driver) (w0 N : nat) :
  simulated_window drv w0 N ->
  forall (k fuel : nat) (e : VkExtent2D) (s : State),
    (count is_wait (trace s) + k = w0 + N)%nat ->
    zero_area e = true ->
    (k < fuel)%nat ->
    exists s' ws,
      wait_for_extent drv fuel e s = Ret (mkExtent 800 600) s' /\
      trace s' = trace s ++ ws /\
      count is_read ws = S k /\
      count is_wait ws = S k /\
      Forall (fun ev => is_window_event ev = true) ws.
Proof.
  intros Hsim. induction k as [|k IH]; intros fuel e s Hk Hz Hf;
    (destruct fuel as [|fuel]; [lia|]); simpl; rewrite Hz;
    unfold bind, window_getExtent, process_events; rewrite (Hsim (trace s)).
  - replace (count is_wait (trace s) <? w0 + N)%nat with false
      by (symmetry; apply Nat.ltb_ge; lia).
    rewrite wait_for_extent_done by reflexivity.
    eexists. exists [getExtent (mkExtent 800 600); glfwWaitEvents].
    split; [reflexivity|]. simpl. rewrite <- !app_assoc.
    repeat split. repeat constructor.
  - replace (count is_wait (trace s) <? w0 + N)%nat with true
      by (symmetry; apply Nat.ltb_lt; lia).
    match goal with |- context [wait_for_extent drv fuel ?e' ?s'] =>
      destruct (IH fuel e' s') as (s1 & ws & Hr & Ht & Hcr & Hcw & Hw)
    end.
    + simpl. unfold count in *. rewrite !filter_app, !length_app. simpl. lia.
    + reflexivity.
    + lia.
    + exists s1. exists (getExtent (mkExtent 0 0) :: glfwWaitEvents :: ws).
      split; [exact Hr|]. split; [|split; [|split]].
      * rewrite Ht. simpl. now rewrite <- !app_assoc.
      * unfold count in *. simpl. now rewrite Hcr.
      * unfold count in *. simpl. now rewrite Hcw.
      * repeat constructor. exact Hw.
Qed.

Lemma rebuild_no_window (p : Event -> bool) (d : Trace) :
  (forall ev, is_rebuild_event ev = true -> p ev = false) ->
  Forall (fun ev => is_rebuild_event ev = true) d -> count p d = 0%nat.
Proof.
  intros Hp Hd. unfold count. now rewrite (filter_none p is_rebuild_event d Hp Hd).
Qed.

Lemma rebuild_not_read (ev : Event) : is_rebuild_event ev = true -> is_read ev = false.
Proof. destruct ev; cbv; congruence. Qed.

Lemma rebuild_not_wait (ev : Event) : is_rebuild_event ev = true -> is_wait ev = false.
Proof. destruct ev; cbv; congruence. Qed.

(** With the transition after one wait, the call reads the extent
    three times, not twice. *)
Lemma recreateSwapChain_three_reads :
  simulated_window (minimised 1) (count is_wait (trace running)) 1 /\
  exists s',
    recreateSwapChain (minimised 1) 5 running = Ret tt s' /\
    count is_read (added running s') = 3%nat /\
    count is_read (added running s') <> (1 + 1)%nat.
Proof.
  split; [intros h; reflexivity|].
  eexists. split; [vm_compute; reflexivity|].
  split; [vm_compute; reflexivity|]. vm_compute. discriminate.
Qed.

(** X2: a successful [recreateSwapChain] constructs exactly one
    surface, at an extent of non-zero area.  On the simulated window that
    turns from (0,0) to (800,600) after [N] blocking waits, the call does
    not stay blocked, and constructs its one surface at (800,600); it
    reads the extent once if [N = 0], and otherwise [N + 2] times (once
    before the loop and once in each of its [N + 1] iterations, each
    iteration reading before it waits), waiting [N + 1] times. *)
Theorem recreateSwapChain_minimised :
  (forall drv fuel s s',
      recreateSwapChain drv fuel s = Ret tt s' ->
      exists e, constructions (added s s') = [e] /\ zero_area e = false) /\
  (forall drv N fuel s,
      simulated_window drv (count is_wait (trace s)) N ->
      (N < fuel)%nat ->
      (forall s', recreateSwapChain drv fuel s <> Halt Blocked s') /\
      count is_read (added s (state_of (recreateSwapChain drv fuel s)))
      = (if (N =? 0)%nat then 1 else N + 2)%nat /\
      count is_wait (added s (state_of (recreateSwapChain drv fuel s)))
      = (if (N =? 0)%nat then 0 else N + 1)%nat /\
      constructions (added s (state_of (recreateSwapChain drv fuel s)))
      = [mkExtent 800 600]).
Proof.
  split.
  - intros drv fuel s s' H.
    destruct (recreateSwapChain_events drv fuel s) as (d & Ht & _ & Hz & _ & Hm).
    rewrite H in Ht, Hm. simpl in Ht. rewrite (added_app s s' d Ht).
    destruct Hm as [Hl _].
    destruct (constructions d) as [|e [|e' l]]; try discriminate.
    exists e. split; [reflexivity|]. now inversion Hz.
  - intros drv N fuel s Hsim Hf. rewrite recreateSwapChain_unfold.
    rewrite (Hsim (trace s)). destruct N as [|N].
    + replace (count is_wait (trace s) <? count is_wait (trace s) + 0)%nat
        with false by (symmetry; apply Nat.ltb_ge; lia).
      rewrite wait_for_extent_done by reflexivity.
      match goal with |- context [after_wait drv ?e ?s1] =>
        destruct (after_wait_events drv e s1) as (d & Ht & Hr & Hc & _ & Hm);
        rewrite (added_app s (state_of (after_wait drv e s1))
                   (getExtent e :: d))
          by (rewrite Ht; simpl; now rewrite <- app_assoc);
        destruct (after_wait drv e s1) as [[] s2|w s2]
      end.
      all: change (getExtent (mkExtent 800 600) :: d)
             with ([getExtent (mkExtent 800 600)] ++ d).
      all: rewrite !count_app, constructions_app, Hc,
             (rebuild_no_window is_read d rebuild_not_read Hr),
             (rebuild_no_window is_wait d rebuild_not_wait Hr).
      all: repeat split; try discriminate.
      intros s' E. inversion E; subst. exact Hm.
    + replace (count is_wait (trace s) <? count is_wait (trace s) + S N)%nat
        with true by (symmetry; apply Nat.ltb_lt; lia).
      match goal with |- context [wait_for_extent drv fuel ?e ?s0] =>
        destruct (wait_for_extent_simulated drv _ _ Hsim (S N) fuel e s0)
          as (s1 & ws & Hr1 & Ht1 & Hcr & Hcw & Hw)
      end.
      * simpl. unfold count. rewrite filter_app, length_app. simpl. lia.
      * reflexivity.
      * exact Hf.
      * rewrite Hr1.
        match goal with |- context [after_wait drv ?e s1] =>
          destruct (after_wait_events drv e s1) as (d & Ht & Hr & Hc & _ & Hm);
          rewrite (added_app s (state_of (after_wait drv e s1))
                     ([getExtent (mkExtent 0 0)] ++ ws ++ d))
            by (rewrite Ht, Ht1; simpl; now rewrite <- !app_assoc);
          destruct (after_wait drv e s1) as [[] s2|w s2]
        end.
        all: rewrite !count_app, !constructions_app, Hc, Hcr, Hcw,
               (window_no_constructions ws Hw),
               (rebuild_no_window is_read d rebuild_not_read Hr),
               (rebuild_no_window is_wait d rebuild_not_wait Hr).
        all: cbn [Nat.eqb]; repeat split; try discriminate;
             try (unfold count; simpl; lia).
        intros s' E. inversion E; subst. exact Hm.
Qed.

Lemma recreateSwapChain_minimised_witness :
  count is_read (added running (state_of (recreateSwapChain (minimised 2) 3 running)))
  = 4%nat /\
  constructions (added running (state_of (recreateSwapChain (minimised 2) 3 running)))
  = [mkExtent 800 600] /\
  exists e, constructions (added running
                             (state_of (recreateSwapChain quiet 0 running))) = [e] /\
            zero_area e = false.
Proof.
  destruct recreateSwapChain_minimised as [general simulated].
  destruct (simulated (minimised 2) 2%nat 3%nat running) as (_ & Hr & _ & Hc).
  - intros h. reflexivity.
  - lia.
  - split; [exact Hr|]. split; [exact Hc|].
    apply (general quiet 0%nat running). reflexivity.
Defined.

Ltac find_event H :=
  repeat (destruct H as [H|H]; [try discriminate|]); try contradiction.

Lemma skipn_exact (t d : Trace) : skipn (length t) (t ++ d) = d.
Proof. now rewrite skipn_app, skipn_all, Nat.sub_diag. Qed.

(** The decision of [recreateSwapChain] on the command buffers, from the
    device-idle wait on. *)
Lemma after_wait_reallocation (drv : Driver) (e e' : VkExtent2D) (s : State)
      (old old' sc : VreSwapChain) :
  vreSwapChain s = Some old ->
  In (new_VreSwapChain e' (Some old') (Some sc))
     (added s (state_of (after_wait drv e s))) ->
  old' = old /\
  (imageCount sc = length (commandBuffers s) ->
   commandBuffers (state_of (after_wait drv e s)) = commandBuffers s /\
   filter is_pool_event (added s (state_of (after_wait drv e s))) = []) /\
  (imageCount sc <> length (commandBuffers s) ->
   exists r,
     filter is_pool_event (added s (state_of (after_wait drv e s)))
     = [vkFreeCommandBuffers (free_count (Z.of_nat (length (commandBuffers s))))
                             (commandBuffers s);
        vkAllocateCommandBuffers (to_uint32 (Z.of_nat (imageCount sc))) r] /\
     length (commandBuffers (state_of (after_wait drv e s))) = imageCount sc) /\
  (forall s', after_wait drv e s = Ret tt s' ->
     vreSwapChain s' = Some sc /\
     exists p, vrePipeline s' = Some p /\
       In (new_VrePipeline (getRenderPass sc) (pipelineLayout s) (Some p))
          (added s s')).
Proof.
  intros Hold Hin. revert Hin. unfold added. munfold. mflat. rewrite Hold.
  msplit; rewrite <- ?app_assoc, ?skipn_exact; cbn [app filter In is_pool_event is_free is_allocate orb]; intros Hin;
    find_event Hin; inversion Hin; subst; clear Hin;
    rewrite ?resize_length;
    (split; [reflexivity|]); (split; [|split]).
  all: try (intros s' E; try discriminate E; inversion E; subst s'; clear E;
            mflat; split; [reflexivity|]; eexists; split; [reflexivity|];
            rewrite <- ?app_assoc, ?skipn_exact; cbn [app In]; tauto).
  all: try (intros Heq;
            match goal with
            | H : negb (_ =? _)%nat = true |- _ =>
                apply negb_true_iff, Nat.eqb_neq in H
            | H : negb (_ =? _)%nat = false |- _ =>
                apply negb_false_iff, Nat.eqb_eq in H
            end; try congruence).
  all: try (split; reflexivity).
  all: try (eexists; split; [reflexivity|]).
  all: rewrite ?allocated_length, ?resize_length;
       rewrite ?resize_length; try reflexivity; try apply to_uint32_le.
Qed.

Lemma window_not_pool (ev : Event) : is_window_event ev = true -> is_pool_event ev = false.
Proof. destruct ev; cbv; congruence. Qed.

Lemma in_window_events (ev : Event) (ws : Trace) :
  Forall (fun ev => is_window_event ev = true) ws -> In ev ws ->
  is_window_event ev = true.
Proof. intros H Hin. rewrite Forall_forall in H. now apply H. Qed.

(** X3: whenever [recreateSwapChain] replaces the surface [old] by a new
    surface [sc]: if [sc] has as many images as there are command
    buffers, the call neither frees nor allocates and the set is left
    as it was; if not, the call frees the old set and then asks for as
    many buffers as [sc] has images, exactly once each, and the set has
    that length.  When the call returns, [sc] is the surface and a
    pipeline newly built on its render pass is the pipeline. *)
Theorem recreateSwapChain_reallocation (drv : Driver) (fuel : nat) (s : State)
        (old sc : VreSwapChain) (e : VkExtent2D) :
  vreSwapChain s = Some old ->
  In (new_VreSwapChain e (Some old) (Some sc))
     (added s (state_of (recreateSwapChain drv fuel s))) ->
  (imageCount sc = length (commandBuffers s) ->
   commandBuffers (state_of (recreateSwapChain drv fuel s)) = commandBuffers s /\
   filter is_pool_event (added s (state_of (recreateSwapChain drv fuel s))) = []) /\
  (imageCount sc <> length (commandBuffers s) ->
   exists r,
     filter is_pool_event (added s (state_of (recreateSwapChain drv fuel s)))
     = [vkFreeCommandBuffers (free_count (Z.of_nat (length (commandBuffers s))))
                             (commandBuffers s);
        vkAllocateCommandBuffers (to_uint32 (Z.of_nat (imageCount sc))) r] /\
     length (commandBuffers (state_of (recreateSwapChain drv fuel s)))
     = imageCount sc) /\
  (forall s', recreateSwapChain drv fuel s = Ret tt s' ->
     vreSwapChain s' = Some sc /\
     exists p, vrePipeline s' = Some p /\
       In (new_VrePipeline (getRenderPass sc) (pipelineLayout s) (Some p))
          (added s s')).
Proof.
  intros Hold. rewrite recreateSwapChain_unfold.
  match goal with |- context [wait_for_extent drv fuel ?e0 ?s0] =>
    destruct (wait_for_extent_spec drv fuel e0 s0) as (ws & Ht & Hw & Ho & _);
    destruct (wait_for_extent drv fuel e0 s0) as [e1 s1 | w s1]
  end; simpl in Ht, Ho.
  - destruct Ho as (Hsc & _ & _ & Hpl & Hcb). simpl in Hsc, Hpl, Hcb.
    destruct (after_wait_events drv e1 s1) as (d & Hd & _).
    assert (Hs : forall s2, trace s2 = trace s1 ++ added s1 s2 ->
                 added s s2 = getExtent (drv_extent drv (trace s)) :: ws ++ added s1 s2).
    { intros s2 H2. apply added_app. rewrite H2, Ht. now rewrite <- !app_assoc. }
    assert (Hd' : trace (state_of (after_wait drv e1 s1))
                  = trace s1 ++ added s1 (state_of (after_wait drv e1 s1)))
      by now rewrite (added_app _ _ d Hd).
    rewrite (Hs _ Hd'). intros Hin.
    assert (Hin' : In (new_VreSwapChain e (Some old) (Some sc))
                      (added s1 (state_of (after_wait drv e1 s1)))).
    { destruct Hin as [Hin|Hin]; [discriminate|].
      apply in_app_or in Hin. destruct Hin as [Hin|Hin]; [|exact Hin].
      now apply (in_window_events _ ws Hw) in Hin. }
    rewrite Hold in Hsc.
    destruct (after_wait_reallocation drv e1 e s1 old old sc Hsc Hin')
      as (_ & Hsame & Hdiff & Hret).
    rewrite Hcb in Hsame, Hdiff. rewrite Hpl in Hret.
    assert (Hf : forall t, filter is_pool_event
                             (getExtent (drv_extent drv (trace s)) :: ws ++ t)
                           = filter is_pool_event t).
    { intros t. simpl. rewrite filter_app.
      now rewrite (filter_none is_pool_event is_window_event ws window_not_pool Hw). }
    rewrite Hf. split; [exact Hsame|]. split; [exact Hdiff|].
    intros s' E. destruct (Hret s' E) as (H1 & p & H2 & H3).
    split; [exact H1|]. exists p. split; [exact H2|].
    rewrite E in Hd'. simpl in Hd'. rewrite (Hs s' Hd').
    right. apply in_or_app. now right.
  - cbn [state_of].
    rewrite (added_app s s1 (getExtent (drv_extent drv (trace s)) :: ws))
      by (simpl; rewrite Ht; now rewrite <- app_assoc).
    intros [Hin|Hin]; [discriminate|].
    now apply (in_window_events _ ws Hw) in Hin.
Qed.

Lemma recreateSwapChain_reallocation_witness :
  (exists r,
      filter is_pool_event (added running (state_of (recreateSwapChain two_images 0 running)))
      = [vkFreeCommandBuffers (free_count 3) [100; 101; 102];
         vkAllocateCommandBuffers (to_uint32 2) r] /\
      length (commandBuffers (state_of (recreateSwapChain two_images 0 running)))
      = 2%nat) /\
  commandBuffers (state_of (recreateSwapChain quiet 0 running)) = [100; 101; 102].
Proof.
  split.
  - apply (recreateSwapChain_reallocation two_images 0 running
             (surface (mkExtent 640 480) 3) (surface (mkExtent 640 480) 2)
             (mkExtent 640 480)).
    + reflexivity.
    + vm_compute. tauto.
    + vm_compute. discriminate.
  - apply (recreateSwapChain_reallocation quiet 0 running
             (surface (mkExtent 640 480) 3) (surface (mkExtent 640 480) 3)
             (mkExtent 640 480)).
    + reflexivity.
    + vm_compute. tauto.
    + reflexivity.
Defined.

(** ** [recordCommandBuffer] *)

Lemma vector_at_ret (v : list handle) (i : Z) (s s' : State) (cb : handle) :
  vector_at v i s = Ret cb s' ->
  0 <= i < Z.of_nat (length v) /\ cb = nth (Z.to_nat i) v VK_NULL_HANDLE /\ s' = s.
Proof.
  unfold vector_at.
  destruct (Z.leb_spec 0 i); destruct (Z.ltb_spec i (Z.of_nat (length v)));
    simpl; try discriminate.
  intros E. inversion E. repeat split; auto.
Qed.

Lemma vector_at_in_range (v : list handle) (i : Z) (s : State) :
  0 <= i < Z.of_nat (length v) ->
  vector_at v i s = Ret (nth (Z.to_nat i) v VK_NULL_HANDLE) s.
Proof.
  intros [H0 H1]. unfold vector_at.
  destruct (Z.leb_spec 0 i); [|lia].
  destruct (Z.ltb_spec i (Z.of_nat (length v))); [|lia]. reflexivity.
Qed.

Lemma in_range (i n : Z) : (0 <=? i) && (i <? n) = true -> 0 <= i < n.
Proof. intros H. apply andb_true_iff in H. lia. Qed.

Lemma eqb_success (r : VkResult) : negb (r =? VK_SUCCESS) = false -> r = VK_SUCCESS.
Proof. intros H. apply negb_false_iff in H. now apply Z.eqb_eq. Qed.

(** A recording that returns has recorded the commands of the frame,
    between a successful begin and a successful end, into the buffer of
    the image, and has changed nothing else. *)
Lemma recordCommandBuffer_ret (drv : Driver) (i : Z) (s s' : State) :
  recordCommandBuffer drv i s = Ret tt s' ->
  exists sc p m,
    vreSwapChain s = Some sc /\ vrePipeline s = Some p /\ vreModel s = Some m /\
    0 <= i < Z.of_nat (length (commandBuffers s)) /\
    0 <= i < Z.of_nat (length (swapChainFramebuffers sc)) /\
    s' = append_trace
           (recording (nth (Z.to_nat i) (commandBuffers s) VK_NULL_HANDLE)
              (frame_commands (getRenderPass sc)
                 (nth (Z.to_nat i) (swapChainFramebuffers sc) VK_NULL_HANDLE)
                 (getSwapChainExtent sc) p m)) s.
Proof.
  munfold. mflat. msplit; intros H; try discriminate H.
  inversion H; subst s'; clear H.
  repeat match goal with
         | H : negb (_ =? VK_SUCCESS) = false |- _ => apply eqb_success in H
         | H : _ && _ = true |- _ => apply in_range in H
         end.
  do 3 eexists. repeat (split; [reflexivity || eassumption|]).
  unfold recording, frame_commands.
  repeat match goal with H : drv_begin _ _ _ = _ |- _ => rewrite H in *; clear H end.
  repeat match goal with H : drv_end _ _ _ = _ |- _ => rewrite H; clear H end.
  cbn [map app]. now rewrite <- !app_assoc.
Qed.

(** A recording that does not return has thrown at the begin or at the
    end, or has indexed out of range or through a null pointer; it
    never blocks and fails no assertion.  The object is as it was. *)
Lemma recordCommandBuffer_halt (drv : Driver) (i : Z) (s s' : State) (w : Stop) :
  recordCommandBuffer drv i s = Halt w s' ->
  same_object s s' /\ framebufferResized s' = framebufferResized s /\
  exists d, trace s' = trace s ++ d /\
    Forall (fun ev => is_recording ev = true) d /\
    (w = Thrown failed_to_begin_recording_command_buffer /\ commands d = [] \/
     w = Thrown failed_to_record_command_buffer \/
     w = Undefined).
Proof.
  munfold. mflat. msplit; intros H; try discriminate H;
    inversion H; subst; clear H; mflat;
    (split; [unfold same_object; mflat; repeat split; congruence|]);
    (split; [reflexivity|]);
    (eexists; split; [rewrite <- ?app_assoc; cbn [app]; try reflexivity;
                      symmetry; apply app_nil_r|]);
    (split; [repeat constructor|]); auto.
Qed.

Lemma recordCommandBuffer_trace (drv : Driver) (i : Z) (s : State) :
  exists d,
    trace (state_of (recordCommandBuffer drv i s)) = trace s ++ d /\
    Forall (fun ev => is_recording ev = true) d /\
    same_object s (state_of (recordCommandBuffer drv i s)) /\
    framebufferResized (state_of (recordCommandBuffer drv i s))
    = framebufferResized s.
Proof.
  destruct (recordCommandBuffer drv i s) as [[] s'|w s'] eqn:H.
  - apply recordCommandBuffer_ret in H.
    destruct H as (sc & p & m & _ & _ & _ & _ & _ & ->).
    eexists. split; [reflexivity|]. split; [|split; [repeat split|reflexivity]].
    unfold recording. constructor; [reflexivity|]. apply Forall_app. split.
    + apply Forall_forall. intros ev Hin. apply in_map_iff in Hin.
      destruct Hin as (c & <- & _). reflexivity.
    + repeat constructor.
  - apply recordCommandBuffer_halt in H.
    destruct H as (Ho & Hf & d & Ht & Hd & _).
    exists d. cbn [state_of]. auto.
Qed.

(** ** [drawFrame] *)

Lemma drawFrame_null (drv : Driver) (fuel : nat) (s : State) :
  vreSwapChain s = None -> drawFrame drv fuel s = Halt Undefined s.
Proof. intros H. unfold drawFrame, bind, deref. now rewrite H. Qed.

Lemma drawFrame_unfold (drv : Driver) (fuel : nat) (s : State) (sc : VreSwapChain) :
  vreSwapChain s = Some sc ->
  drawFrame drv fuel s =
  if acquired_status drv s =? VK_ERROR_OUT_OF_DATE_KHR then
    recreateSwapChain drv fuel (acquired drv s)
  else if negb (acquired_status drv s =? VK_SUCCESS)
          && negb (acquired_status drv s =? VK_SUBOPTIMAL_KHR) then
    Halt (Thrown failed_to_acquire_swap_chain_image) (acquired drv s)
  else after_acquire drv fuel (acquired_index drv s) (acquired drv s).
Proof.
  intros H. unfold drawFrame, bind at 1, deref. rewrite H.
  unfold bind at 1, swapchain_acquireNextImage. cbn [fst snd].
  fold (acquired_status drv s). fold (acquired_index drv s).
  fold (acquired drv s).
  destruct (acquired_status drv s =? VK_ERROR_OUT_OF_DATE_KHR); [reflexivity|].
  destruct (negb (acquired_status drv s =? VK_SUCCESS)
            && negb (acquired_status drv s =? VK_SUBOPTIMAL_KHR)); reflexivity.
Qed.

Lemma after_acquire_unfold (drv : Driver) (fuel : nat) (i : Z) (s : State) :
  after_acquire drv fuel i s =
  match recordCommandBuffer drv (int_of_uint32 i) s with
  | Ret _ s2 =>
      match vector_at (commandBuffers s2) i s2 with
      | Ret cb s3 =>
          after_submit drv fuel (drv_submit drv (trace s3) cb i)
            (log (submitCommandBuffers cb i (drv_submit drv (trace s3) cb i)) s3)
      | Halt w s3 => Halt w s3
      end
  | Halt w s2 => Halt w s2
  end.
Proof. reflexivity. Qed.

(** With a stale result or a pending resize, the rest of the frame is
    one recreation, entered with the flag cleared. *)
Lemma after_submit_stale (drv : Driver) (fuel : nat) (r : VkResult) (s : State) :
  stale_result r = true \/ framebufferResized s = true ->
  after_submit drv fuel r s =
  recreateSwapChain drv fuel
    (set_framebufferResized false (append_trace (flag_events r) s)).
Proof.
  unfold after_submit, flag_events, stale_result, bind, ret,
    window_wasWindowResized, window_resetWindowResizedFlag.
  intros [H|H].
  - rewrite H. reflexivity.
  - destruct ((r =? VK_ERROR_OUT_OF_DATE_KHR) || (r =? VK_SUBOPTIMAL_KHR));
      [reflexivity|].
    rewrite H. f_equal. unfold log, set_framebufferResized, append_trace.
    cbn [vreSwapChain vrePipeline vreModel pipelineLayout commandBuffers
         framebufferResized trace app].
    now rewrite <- app_assoc.
Qed.

(** Without either, the frame ends: with an exception if the submission
    failed, and normally otherwise. *)
Lemma after_submit_fresh (drv : Driver) (fuel : nat) (r : VkResult) (s : State) :
  stale_result r = false -> framebufferResized s = false ->
  after_submit drv fuel r s =
  if negb (r =? VK_SUCCESS)
  then Halt (Thrown failed_to_present_swap_chain_image) (log (wasWindowResized false) s)
  else Ret tt (log (wasWindowResized false) s).
Proof.
  unfold after_submit, stale_result, bind, ret, throw, halt,
    window_wasWindowResized.
  intros H1 H2. rewrite H1, H2.
  destruct (negb (r =? VK_SUCCESS)); reflexivity.
Qed.

Lemma after_submit_thrown (drv : Driver) (fuel : nat) (r : VkResult)
      (s s' : State) (e : Error) :
  after_submit drv fuel r s = Halt (Thrown e) s' ->
  e = failed_to_present_swap_chain_image \/ recreation_error e = true.
Proof.
  destruct (stale_result r) eqn:Hr; [|destruct (framebufferResized s) eqn:Hf].
  - rewrite after_submit_stale by now left.
    intros H.
    match type of H with recreateSwapChain drv fuel ?s0 = _ =>
      destruct (recreateSwapChain_events drv fuel s0) as (d & _ & _ & _ & _ & Hm)
    end.
    rewrite H in Hm. now right.
  - rewrite after_submit_stale by now right.
    intros H.
    match type of H with recreateSwapChain drv fuel ?s0 = _ =>
      destruct (recreateSwapChain_events drv fuel s0) as (d & _ & _ & _ & _ & Hm)
    end.
    rewrite H in Hm. now right.
  - rewrite after_submit_fresh by assumption.
    destruct (negb (r =? VK_SUCCESS)); [|discriminate].
    intros H. inversion H. now left.
Qed.

Lemma acquired_index_range (drv : Driver) (s : State) :
  0 <= acquired_index drv s < UINT32_MOD.
Proof. unfold acquired_index, to_uint32. apply Z.mod_pos_bound. reflexivity. Qed.

Lemma int_of_uint32_nonneg (i : Z) :
  0 <= i < UINT32_MOD -> 0 <= int_of_uint32 i -> int_of_uint32 i = i.
Proof.
  unfold int_of_uint32, UINT32_MOD. intros Hi.
  destruct (Z.ltb_spec i (2 ^ 31)); lia.
Qed.

(** Once the recording has returned, the frame goes on to the
    submission of the buffer that was recorded. *)
Lemma after_acquire_recorded (drv : Driver) (fuel : nat) (i : Z) (s s2 : State) :
  0 <= i < UINT32_MOD ->
  recordCommandBuffer drv (int_of_uint32 i) s = Ret tt s2 ->
  int_of_uint32 i = i /\
  0 <= i < Z.of_nat (length (commandBuffers s)) /\
  after_acquire drv fuel i s =
  after_submit drv fuel
    (drv_submit drv (trace s2) (nth (Z.to_nat i) (commandBuffers s) VK_NULL_HANDLE) i)
    (log (submitCommandBuffers
            (nth (Z.to_nat i) (commandBuffers s) VK_NULL_HANDLE) i
            (drv_submit drv (trace s2)
               (nth (Z.to_nat i) (commandBuffers s) VK_NULL_HANDLE) i)) s2).
Proof.
  intros Hi Hrec. rewrite after_acquire_unfold, Hrec.
  apply recordCommandBuffer_ret in Hrec.
  destruct Hrec as (sc & p & m & _ & _ & _ & Hr & _ & ->).
  assert (Hii : int_of_uint32 i = i) by (apply int_of_uint32_nonneg; lia).
  rewrite Hii in Hr. split; [exact Hii|]. split; [exact Hr|].
  cbn [append_trace commandBuffers].
  now rewrite vector_at_in_range by exact Hr.
Qed.

Lemma after_acquire_thrown (drv : Driver) (fuel : nat) (i : Z)
      (s s' : State) (e : Error) :
  0 <= i < UINT32_MOD ->
  after_acquire drv fuel i s = Halt (Thrown e) s' ->
  e = failed_to_begin_recording_command_buffer \/
  e = failed_to_record_command_buffer \/
  e = failed_to_present_swap_chain_image \/
  recreation_error e = true.
Proof.
  intros Hi. destruct (recordCommandBuffer drv (int_of_uint32 i) s)
    as [[] s2|w s2] eqn:Hrec.
  - destruct (after_acquire_recorded drv fuel i s s2 Hi Hrec) as (_ & _ & ->).
    intros H. apply after_submit_thrown in H. tauto.
  - rewrite after_acquire_unfold, Hrec. intros H. inversion H; subst.
    apply recordCommandBuffer_halt in Hrec.
    destruct Hrec as (_ & _ & d & _ & _ & [[Hw _]|[Hw|Hw]]);
      inversion Hw; auto.
Qed.

Lemma recreation_count_frame (d : Trace) :
  Forall (fun ev => is_recreation_event ev = true) d ->
  count is_frame_event d = 0%nat.
Proof.
  intros H. unfold count.
  rewrite (filter_none is_frame_event is_recreation_event d); [reflexivity| |exact H].
  intros ev; destruct ev; cbv; intro; congruence.
Qed.

(** X8: when the acquisition reports an out-of-date surface, the rest
    of [drawFrame] is one call of [recreateSwapChain]: nothing is
    recorded and nothing submitted, at most one surface is constructed
    (exactly one if the call returns), and the only exceptions are those
    of the recreation. *)
Theorem drawFrame_out_of_date (drv : Driver) (fuel : nat) (s : State)
        (sc : VreSwapChain) :
  vreSwapChain s = Some sc ->
  acquired_status drv s = VK_ERROR_OUT_OF_DATE_KHR ->
  drawFrame drv fuel s = recreateSwapChain drv fuel (acquired drv s) /\
  count is_frame_event (added s (state_of (drawFrame drv fuel s))) = 0%nat /\
  commands (added s (state_of (drawFrame drv fuel s))) = [] /\
  (length (constructions (added s (state_of (drawFrame drv fuel s)))) <= 1)%nat /\
  match drawFrame drv fuel s with
  | Ret _ s' => length (constructions (added s s')) = 1%nat
  | Halt (Thrown err) _ => recreation_error err = true
  | Halt (AssertFailed _) _ => pipelineLayout s = VK_NULL_HANDLE
  | Halt Undefined _ => False
  | Halt Blocked _ => True
  end.
Proof.
  intros Hsc Hst. rewrite (drawFrame_unfold drv fuel s sc Hsc), Hst.
  change (VK_ERROR_OUT_OF_DATE_KHR =? VK_ERROR_OUT_OF_DATE_KHR) with true.
  cbv iota. split; [reflexivity|].
  destruct (recreateSwapChain_events drv fuel (acquired drv s))
    as (d & Ht & Hd & _ & Hl & Hm).
  assert (Ha : added s (state_of (recreateSwapChain drv fuel (acquired drv s)))
               = acquireNextImage (acquired_status drv s) (acquired_index drv s) :: d).
  { apply added_app. rewrite Ht. unfold acquired, log. cbn [trace].
    now rewrite <- app_assoc. }
  rewrite Ha.
  change (acquireNextImage (acquired_status drv s) (acquired_index drv s) :: d)
    with ([acquireNextImage (acquired_status drv s) (acquired_index drv s)] ++ d).
  rewrite count_app, commands_app, constructions_app,
    (recreation_count_frame d Hd), (recreation_no_commands d Hd).
  split; [reflexivity|]. split; [reflexivity|]. split; [exact Hl|].
  destruct (recreateSwapChain drv fuel (acquired drv s)) as [[] s'|[err|a| |] s'];
    cbn [state_of] in *; try exact Hm.
  rewrite Ha. cbn [constructions]. apply Hm.
Qed.

Lemma drawFrame_out_of_date_witness :
  drawFrame (stale_acquire two_images) 0 running
  = recreateSwapChain (stale_acquire two_images) 0
      (acquired (stale_acquire two_images) running).
Proof.
  apply (drawFrame_out_of_date (stale_acquire two_images) 0 running
           (surface (mkExtent 640 480) 3)); reflexivity.
Defined.

(** X9: [drawFrame] throws the acquisition error exactly when the
    acquisition reports something other than success, suboptimal and
    out of date; it then has logged the acquisition and nothing else,
    and has left the object as it was. *)
Theorem drawFrame_acquire_failure (drv : Driver) (fuel : nat) (s : State)
        (sc : VreSwapChain) :
  vreSwapChain s = Some sc ->
  ((exists s', drawFrame drv fuel s
               = Halt (Thrown failed_to_acquire_swap_chain_image) s') <->
   (acquired_status drv s <> VK_SUCCESS /\
    acquired_status drv s <> VK_SUBOPTIMAL_KHR /\
    acquired_status drv s <> VK_ERROR_OUT_OF_DATE_KHR)) /\
  (forall s', drawFrame drv fuel s
              = Halt (Thrown failed_to_acquire_swap_chain_image) s' ->
              s' = acquired drv s).
Proof.
  intros Hsc. rewrite (drawFrame_unfold drv fuel s sc Hsc).
  destruct (Z.eqb_spec (acquired_status drv s) VK_ERROR_OUT_OF_DATE_KHR) as [Ho|Ho].
  - assert (Hno : forall s', recreateSwapChain drv fuel (acquired drv s)
                             <> Halt (Thrown failed_to_acquire_swap_chain_image) s').
    { intros s' H.
      destruct (recreateSwapChain_events drv fuel (acquired drv s))
        as (d & _ & _ & _ & _ & Hm).
      rewrite H in Hm. discriminate. }
    split; [split|].
    + intros [s' H]. now apply Hno in H.
    + tauto.
    + intros s' H. now apply Hno in H.
  - destruct (Z.eqb_spec (acquired_status drv s) VK_SUCCESS) as [H0|H0];
      [|destruct (Z.eqb_spec (acquired_status drv s) VK_SUBOPTIMAL_KHR) as [H1|H1]];
      cbn [negb andb].
    1, 2: assert (Hno : forall s', after_acquire drv fuel (acquired_index drv s)
                                     (acquired drv s)
                           <> Halt (Thrown failed_to_acquire_swap_chain_image) s')
        by (intros s' H;
            apply after_acquire_thrown in H; [|apply acquired_index_range];
            destruct H as [H|[H|[H|H]]]; discriminate);
      (split; [split|]);
      [ intros [s' H]; now apply Hno in H | tauto
      | intros s' H; now apply Hno in H ].
    split; [split|].
    + tauto.
    + intros _. eexists. reflexivity.
    + intros s' H. now inversion H.
Qed.

Lemma drawFrame_acquire_failure_witness :
  exists s', drawFrame (lost_acquire quiet) 0 running
             = Halt (Thrown failed_to_acquire_swap_chain_image) s'.
Proof.
  apply (drawFrame_acquire_failure (lost_acquire quiet) 0 running
           (surface (mkExtent 640 480) 3)).
  - reflexivity.
  - repeat split; vm_compute; discriminate.
Defined.

Lemma acquire_ok_not_stale (r : VkResult) :
  acquire_ok r = true ->
  (r =? VK_ERROR_OUT_OF_DATE_KHR) = false /\
  negb (r =? VK_SUCCESS) && negb (r =? VK_SUBOPTIMAL_KHR) = false.
Proof.
  unfold acquire_ok. intros H. apply orb_true_iff in H.
  destruct H as [H|H]; apply Z.eqb_eq in H; subst r; split; reflexivity.
Qed.

(** The frame up to the submission: what has happened when the
    acquisition let the frame go on and the recording returned. *)
Lemma drawFrame_recorded (drv : Driver) (fuel : nat) (s s2 : State)
      (sc : VreSwapChain) :
  vreSwapChain s = Some sc ->
  acquire_ok (acquired_status drv s) = true ->
  recordCommandBuffer drv (int_of_uint32 (acquired_index drv s)) (acquired drv s)
  = Ret tt s2 ->
  drawFrame drv fuel s =
  after_submit drv fuel (submitted drv s s2)
    (log (submitCommandBuffers (frame_buffer drv s) (acquired_index drv s)
                               (submitted drv s s2)) s2) /\
  exists p m,
    vrePipeline s = Some p /\ vreModel s = Some m /\
    0 <= acquired_index drv s < Z.of_nat (length (commandBuffers s)) /\
    0 <= acquired_index drv s < Z.of_nat (length (swapChainFramebuffers sc)) /\
    s2 = append_trace
           (acquireNextImage (acquired_status drv s) (acquired_index drv s)
            :: recording (frame_buffer drv s)
                 (frame_commands (getRenderPass sc)
                    (nth (Z.to_nat (acquired_index drv s))
                         (swapChainFramebuffers sc) VK_NULL_HANDLE)
                    (getSwapChainExtent sc) p m)) s.
Proof.
  intros Hsc Hok Hrec.
  destruct (acquire_ok_not_stale _ Hok) as [H1 H2].
  rewrite (drawFrame_unfold drv fuel s sc Hsc), H1, H2.
  destruct (after_acquire_recorded drv fuel _ _ _ (acquired_index_range drv s) Hrec)
    as (Hi & Hr & ->).
  split; [reflexivity|].
  apply recordCommandBuffer_ret in Hrec. rewrite Hi in Hrec.
  destruct Hrec as (sc' & p & m & Hsc' & Hp & Hm & _ & Hf & ->).
  cbn [acquired log vreSwapChain] in Hsc'. rewrite Hsc in Hsc'.
  inversion Hsc'; subst sc'.
  exists p, m. repeat split; try assumption; try apply Hr; try apply Hf.
  unfold acquired, log, append_trace, frame_buffer.
  cbn [vreSwapChain vrePipeline vreModel pipelineLayout commandBuffers
       framebufferResized trace].
  rewrite <- app_assoc. reflexivity.
Qed.

(** X10: when the acquisition let the frame go on and the recording
    returned, and then the submission reports out of date or suboptimal
    or a resize is pending, the rest of [drawFrame] is one call of
    [recreateSwapChain], entered with the resize flag cleared.  The
    call has by then logged, in this order: the acquisition, one
    recording of the frame's commands, one submission, the reading of
    the flag (only if the result was neither of the two) and its reset;
    the recreation adds no recording and no submission. *)
Theorem drawFrame_stale_after_submit (drv : Driver) (fuel : nat) (s s2 : State)
        (sc : VreSwapChain) :
  vreSwapChain s = Some sc ->
  acquire_ok (acquired_status drv s) = true ->
  recordCommandBuffer drv (int_of_uint32 (acquired_index drv s)) (acquired drv s)
  = Ret tt s2 ->
  stale_result (submitted drv s s2) = true \/ framebufferResized s = true ->
  drawFrame drv fuel s =
  recreateSwapChain drv fuel
    (set_framebufferResized false
       (append_trace
          (submitCommandBuffers (frame_buffer drv s) (acquired_index drv s)
                                (submitted drv s s2)
           :: flag_events (submitted drv s s2)) s2)) /\
  exists p m d,
    vrePipeline s = Some p /\ vreModel s = Some m /\
    added s (state_of (drawFrame drv fuel s)) =
    acquireNextImage (acquired_status drv s) (acquired_index drv s)
    :: recording (frame_buffer drv s)
         (frame_commands (getRenderPass sc)
            (nth (Z.to_nat (acquired_index drv s))
                 (swapChainFramebuffers sc) VK_NULL_HANDLE)
            (getSwapChainExtent sc) p m)
    ++ submitCommandBuffers (frame_buffer drv s) (acquired_index drv s)
                            (submitted drv s s2)
    :: flag_events (submitted drv s s2) ++ d /\
    Forall (fun ev => is_recreation_event ev = true) d /\
    count is_frame_event d = 0%nat /\
    (length (constructions d) <= 1)%nat.
Proof.
  intros Hsc Hok Hrec Hstale.
  destruct (drawFrame_recorded drv fuel s s2 sc Hsc Hok Hrec)
    as (Hd & p & m & Hp & Hm & _ & _ & Hs2).
  rewrite Hd.
  assert (Hflag : framebufferResized s2 = framebufferResized s)
    by (rewrite Hs2; reflexivity).
  rewrite after_submit_stale
    by (destruct Hstale as [H|H]; [now left|right; cbn [log framebufferResized]; congruence]).
  match goal with |- recreateSwapChain drv fuel ?a = recreateSwapChain drv fuel ?b /\ _ =>
    assert (Hab : a = b)
  end.
  { unfold log, append_trace, set_framebufferResized.
    cbn [vreSwapChain vrePipeline vreModel pipelineLayout commandBuffers
         framebufferResized trace].
    now rewrite <- app_assoc. }
  rewrite Hab. split; [reflexivity|].
  match goal with |- context [recreateSwapChain drv fuel ?b] =>
    destruct (recreateSwapChain_events drv fuel b) as (d & Ht & Hrd & _ & Hl & _);
    set (o := recreateSwapChain drv fuel b) in *
  end.
  exists p, m, d. split; [exact Hp|]. split; [exact Hm|].
  split; [|split; [exact Hrd|split; [now apply recreation_count_frame|exact Hl]]].
  assert (Htr : trace s2 = trace s ++
                acquireNextImage (acquired_status drv s) (acquired_index drv s)
                :: recording (frame_buffer drv s)
                     (frame_commands (getRenderPass sc)
                        (nth (Z.to_nat (acquired_index drv s))
                             (swapChainFramebuffers sc) VK_NULL_HANDLE)
                        (getSwapChainExtent sc) p m))
    by (rewrite Hs2 at 1; reflexivity).
  apply added_app. rewrite Ht.
  unfold set_framebufferResized, append_trace.
  cbn [vreSwapChain vrePipeline vreModel pipelineLayout commandBuffers
       framebufferResized trace].
  rewrite Htr, <- !app_assoc. reflexivity.
Qed.

Lemma drawFrame_stale_after_submit_witness :
  exists s3,
    drawFrame (suboptimal_submit quiet) 0 running
    = recreateSwapChain (suboptimal_submit quiet) 0 s3 /\
    drawFrame quiet 0 resized = recreateSwapChain quiet 0
      (set_framebufferResized false
         (append_trace (submitCommandBuffers 100 0 VK_SUCCESS
                        :: [wasWindowResized true; resetWindowResizedFlag])
            (state_of (recordCommandBuffer quiet 0 (acquired quiet resized))))).
Proof.
  eexists. split.
  - apply (drawFrame_stale_after_submit (suboptimal_submit quiet) 0 running
             (state_of (recordCommandBuffer (suboptimal_submit quiet) 0
                          (acquired (suboptimal_submit quiet) running)))
             (surface (mkExtent 640 480) 3)).
    + reflexivity.
    + reflexivity.
    + vm_compute. reflexivity.
    + left. reflexivity.
  - apply (drawFrame_stale_after_submit quiet 0 resized
             (state_of (recordCommandBuffer quiet 0 (acquired quiet resized)))
             (surface (mkExtent 640 480) 3)).
    + reflexivity.
    + reflexivity.
    + vm_compute. reflexivity.
    + right. reflexivity.
Defined.

(** X11: when the acquisition let the frame go on, the recording
    returned, the submission reports neither out of date nor suboptimal
    and no resize is pending, [drawFrame] ends the frame without any
    recreation: it has logged the acquisition, one recording, one
    submission and the reading of the flag, has left the object as it
    was, and returns if the submission succeeded and throws the
    presentation error if it did not. *)
Theorem drawFrame_presented (drv : Driver) (fuel : nat) (s s2 : State)
        (sc : VreSwapChain) :
  vreSwapChain s = Some sc ->
  acquire_ok (acquired_status drv s) = true ->
  recordCommandBuffer drv (int_of_uint32 (acquired_index drv s)) (acquired drv s)
  = Ret tt s2 ->
  stale_result (submitted drv s s2) = false ->
  framebufferResized s = false ->
  exists p m s3,
    vrePipeline s = Some p /\ vreModel s = Some m /\
    s3 = append_trace
           (acquireNextImage (acquired_status drv s) (acquired_index drv s)
            :: recording (frame_buffer drv s)
                 (frame_commands (getRenderPass sc)
                    (nth (Z.to_nat (acquired_index drv s))
                         (swapChainFramebuffers sc) VK_NULL_HANDLE)
                    (getSwapChainExtent sc) p m)
            ++ [submitCommandBuffers (frame_buffer drv s) (acquired_index drv s)
                                     (submitted drv s s2);
                wasWindowResized false]) s /\
    drawFrame drv fuel s =
    if submitted drv s s2 =? VK_SUCCESS
    then Ret tt s3
    else Halt (Thrown failed_to_present_swap_chain_image) s3.
Proof.
  intros Hsc Hok Hrec Hst Hfl.
  destruct (drawFrame_recorded drv fuel s s2 sc Hsc Hok Hrec)
    as (Hd & p & m & Hp & Hm & _ & _ & Hs2).
  exists p, m. eexists. split; [exact Hp|]. split; [exact Hm|].
  split; [reflexivity|].
  rewrite Hd, after_submit_fresh; [|exact Hst|rewrite Hs2; exact Hfl].
  set (r := submitted drv s s2) in *. clearbody r. clear Hd Hrec.
  assert (Hs3 : log (wasWindowResized false)
                  (log (submitCommandBuffers (frame_buffer drv s)
                          (acquired_index drv s) r) s2)
                = append_trace
                    (acquireNextImage (acquired_status drv s) (acquired_index drv s)
                     :: recording (frame_buffer drv s)
                          (frame_commands (getRenderPass sc)
                             (nth (Z.to_nat (acquired_index drv s))
                                  (swapChainFramebuffers sc) VK_NULL_HANDLE)
                             (getSwapChainExtent sc) p m)
                     ++ [submitCommandBuffers (frame_buffer drv s)
                           (acquired_index drv s) r;
                         wasWindowResized false]) s).
  { rewrite Hs2. unfold log, append_trace.
    cbn [vreSwapChain vrePipeline vreModel pipelineLayout commandBuffers
         framebufferResized trace].
    f_equal. rewrite <- !app_assoc. reflexivity. }
  rewrite Hs3. now destruct (r =? VK_SUCCESS).
Qed.

Lemma drawFrame_presented_witness :
  exists s3,
    drawFrame quiet 0 running = Ret tt s3 /\
    drawFrame (lost_submit quiet) 0 running
    = Halt (Thrown failed_to_present_swap_chain_image)
        (state_of (drawFrame (lost_submit quiet) 0 running)).
Proof.
  destruct (drawFrame_presented quiet 0 running
              (state_of (recordCommandBuffer quiet 0 (acquired quiet running)))
              (surface (mkExtent 640 480) 3))
    as (p & m & s3 & _ & _ & _ & H).
  1, 2, 4, 5: reflexivity.
  1: vm_compute; reflexivity.
  exists s3. split; [exact H|].
  destruct (drawFrame_presented (lost_submit quiet) 0 running
              (state_of (recordCommandBuffer (lost_submit quiet) 0
                           (acquired (lost_submit quiet) running)))
              (surface (mkExtent 640 480) 3))
    as (p' & m' & s3' & _ & _ & _ & H').
  1, 2, 4, 5: reflexivity.
  1: vm_compute; reflexivity.
  rewrite H'. reflexivity.
Defined.

(** ** [createCommandBuffers], [createPipeline] and the constructor *)

Lemma createCommandBuffers_spec (drv : Driver) (s : State) :
  match vreSwapChain s with
  | None => createCommandBuffers drv s = Halt Undefined s
  | Some sc =>
      exists r,
        trace (state_of (createCommandBuffers drv s))
        = trace s ++ [vkAllocateCommandBuffers (to_uint32 (Z.of_nat (imageCount sc))) r] /\
        length (commandBuffers (state_of (createCommandBuffers drv s)))
        = imageCount sc /\
        vreSwapChain (state_of (createCommandBuffers drv s)) = Some sc /\
        vrePipeline (state_of (createCommandBuffers drv s)) = vrePipeline s /\
        vreModel (state_of (createCommandBuffers drv s)) = vreModel s /\
        pipelineLayout (state_of (createCommandBuffers drv s)) = pipelineLayout s /\
        match createCommandBuffers drv s with
        | Ret _ _ => r = VK_SUCCESS
        | Halt w _ => r <> VK_SUCCESS /\
                      w = Thrown failed_to_allocate_command_buffers
        end
  end.
Proof.
  munfold. mflat.
  destruct (vreSwapChain s) as [sc|] eqn:Hsc; [|reflexivity]. mflat.
  rewrite resize_length.
  match goal with |- context [negb (?r =? VK_SUCCESS)] =>
    exists r; destruct (Z.eqb_spec r VK_SUCCESS) as [Hr|Hr]
  end; cbn [negb]; mflat;
    rewrite ?allocated_length, ?resize_length
      by (rewrite resize_length; apply to_uint32_le);
    repeat split; auto.
Qed.

(** X12: [createCommandBuffers] indexes through a null pointer when
    there is no surface, and logs nothing.  With a surface it asks the
    pool once, for the image count reduced to 32 bits; whether it then
    returns or throws the allocation error, the set has been resized to
    the image count, and nothing else of the object has changed. *)
Theorem createCommandBuffers_outcome (drv : Driver) (s : State) :
  match vreSwapChain s with
  | None => createCommandBuffers drv s = Halt Undefined s
  | Some sc =>
      exists r,
        added s (state_of (createCommandBuffers drv s))
        = [vkAllocateCommandBuffers (to_uint32 (Z.of_nat (imageCount sc))) r] /\
        length (commandBuffers (state_of (createCommandBuffers drv s)))
        = imageCount sc /\
        vreSwapChain (state_of (createCommandBuffers drv s)) = Some sc /\
        vrePipeline (state_of (createCommandBuffers drv s)) = vrePipeline s /\
        vreModel (state_of (createCommandBuffers drv s)) = vreModel s /\
        pipelineLayout (state_of (createCommandBuffers drv s)) = pipelineLayout s /\
        match createCommandBuffers drv s with
        | Ret _ _ => r = VK_SUCCESS
        | Halt w _ => r <> VK_SUCCESS /\
                      w = Thrown failed_to_allocate_command_buffers
        end
  end.
Proof.
  pose proof (createCommandBuffers_spec drv s) as H.
  destruct (vreSwapChain s) as [sc|]; [|exact H].
  destruct H as (r & Ht & H). exists r. split; [|exact H].
  now apply added_app.
Qed.

(** X13: [createPipeline] fails an assertion exactly when the surface
    pointer or the pipeline layout is null, and has then logged
    nothing; it never dereferences a null pointer.  Otherwise it asks
    for one pipeline, on the render pass of the current surface and the
    pipeline layout, and stores it if the construction succeeds. *)
Theorem createPipeline_outcome (drv : Driver) (s : State) :
  ((exists a s', createPipeline drv s = Halt (AssertFailed a) s') <->
   (vreSwapChain s = None \/ pipelineLayout s = VK_NULL_HANDLE)) /\
  match createPipeline drv s with
  | Halt (AssertFailed a) s' =>
      s' = s /\
      (a = Cannot_create_pipeline_before_swap_chain <-> vreSwapChain s = None)
  | Halt (Thrown e) s' =>
      e = VrePipeline_threw /\
      exists sc, vreSwapChain s = Some sc /\
        s' = log (new_VrePipeline (getRenderPass sc) (pipelineLayout s) None) s
  | Ret _ s' =>
      exists sc p, vreSwapChain s = Some sc /\
        s' = set_vrePipeline (Some p)
               (log (new_VrePipeline (getRenderPass sc) (pipelineLayout s) (Some p)) s)
  | Halt Undefined _ | Halt Blocked _ => False
  end.
Proof.
  munfold. mflat. msplit;
    repeat match goal with
           | H1 : ?x = Some _, H2 : ?x = Some _ |- _ =>
               rewrite H1 in H2; inversion H2; subst; clear H2
           | H1 : ?x = Some _, H2 : ?x = None |- _ =>
               rewrite H1 in H2; discriminate H2
           | H : Some _ = Some _ |- _ => inversion H; subst; clear H
           | H : None = Some _ |- _ => discriminate H
           | H : Some _ = None |- _ => discriminate H
           | H : negb (_ =? _) = true |- _ =>
               apply negb_true_iff, Z.eqb_neq in H
           | H : negb (_ =? _) = false |- _ =>
               apply negb_false_iff, Z.eqb_eq in H
           end.
  all: (split; [split; [intros (a & s' & H); inversion H; subst; auto
                       |intros [H|H]; try congruence; eauto]|]).
  all: try (split; [now destruct s|]; split; intros; congruence).
  all: try (split; [reflexivity|]).
  all: repeat eexists; try eassumption.
  all: match goal with H : vreSwapChain _ = _ |- _ => now rewrite H end.
Qed.

(** What a returning recreation leaves behind. *)
Lemma after_wait_ret (drv : Driver) (e : VkExtent2D) (s s' : State) :
  after_wait drv e s = Ret tt s' ->
  exists sc p,
    vreSwapChain s' = Some sc /\ vrePipeline s' = Some p /\
    vreModel s' = vreModel s /\ pipelineLayout s' = pipelineLayout s /\
    pipelineLayout s <> VK_NULL_HANDLE /\
    framebufferResized s' = framebufferResized s /\
    match vreSwapChain s with
    | Some _ => length (commandBuffers s') = imageCount sc
    | None => commandBuffers s' = commandBuffers s
    end.
Proof.
  munfold. mflat. msplit; intros H; try discriminate H;
    inversion H; subst s'; clear H; mflat;
    do 2 eexists; repeat (split; [reflexivity|]);
    (split; [intros Hz;
             match goal with
             | Hb : negb (pipelineLayout s =? VK_NULL_HANDLE) = true |- _ =>
                 rewrite Hz in Hb; discriminate Hb
             end|]);
    (split; [reflexivity|]).
  - rewrite allocated_length by (rewrite resize_length; apply to_uint32_le).
    apply resize_length.
  - symmetry. apply Nat.eqb_eq.
    match goal with Hb : negb ?b = false |- _ => now destruct b end.
  - reflexivity.
Qed.

Lemma recreateSwapChain_ret (drv : Driver) (fuel : nat) (s s' : State) :
  recreateSwapChain drv fuel s = Ret tt s' ->
  exists sc p,
    vreSwapChain s' = Some sc /\ vrePipeline s' = Some p /\
    vreModel s' = vreModel s /\ pipelineLayout s' = pipelineLayout s /\
    pipelineLayout s <> VK_NULL_HANDLE /\
    match vreSwapChain s with
    | Some _ => length (commandBuffers s') = imageCount sc
    | None => commandBuffers s' = commandBuffers s
    end.
Proof.
  rewrite recreateSwapChain_unfold.
  match goal with |- context [wait_for_extent drv fuel ?e ?s0] =>
    destruct (wait_for_extent_spec drv fuel e s0) as (ws & _ & _ & Ho & _);
    destruct (wait_for_extent drv fuel e s0) as [e1 s1 | w s1]
  end; [|discriminate].
  cbn [state_of] in Ho. destruct Ho as (Hsc & _ & Hm & Hl & Hcb).
  cbn [log vreSwapChain vreModel pipelineLayout commandBuffers] in Hsc, Hm, Hl, Hcb.
  intros H. apply after_wait_ret in H.
  destruct H as (sc & p & H1 & H2 & H3 & H4 & H5 & _ & H6).
  exists sc, p. rewrite <- Hsc, <- Hm, <- Hl, <- Hcb. auto 10.
Qed.

(** The three ways of a frame: into one recreation, entered with the
    object untouched; to a stop with the object untouched; or to a
    normal return with the object untouched. *)
Lemma drawFrame_cases (drv : Driver) (fuel : nat) (s : State) (sc : VreSwapChain) :
  vreSwapChain s = Some sc ->
  (exists s0, drawFrame drv fuel s = recreateSwapChain drv fuel s0 /\
              same_object s s0 /\ exists d, trace s0 = trace s ++ d) \/
  (exists w s', drawFrame drv fuel s = Halt w s' /\ same_object s s' /\
                (w = Undefined \/ exists e, w = Thrown e /\ frame_error e = true)) \/
  (exists s', drawFrame drv fuel s = Ret tt s' /\ same_object s s' /\
              framebufferResized s' = false /\
              exists d, trace s' = trace s ++ d).
Proof.
  intros Hsc. rewrite (drawFrame_unfold drv fuel s sc Hsc).
  assert (Hacq : same_object s (acquired drv s))
    by (repeat (split; [reflexivity|]); reflexivity).
  destruct (acquired_status drv s =? VK_ERROR_OUT_OF_DATE_KHR).
  { left. exists (acquired drv s). split; [reflexivity|]. split; [exact Hacq|].
    eexists. reflexivity. }
  destruct (negb (acquired_status drv s =? VK_SUCCESS)
            && negb (acquired_status drv s =? VK_SUBOPTIMAL_KHR)).
  { right. left. do 2 eexists. split; [reflexivity|]. split; [exact Hacq|].
    right. eexists. split; reflexivity. }
  rewrite after_acquire_unfold.
  destruct (recordCommandBuffer_trace drv (int_of_uint32 (acquired_index drv s))
              (acquired drv s)) as (d & Ht & _ & Ho & Hf).
  destruct (recordCommandBuffer drv (int_of_uint32 (acquired_index drv s))
              (acquired drv s)) as [[] s2|w s2] eqn:Hrec; cbn [state_of] in *.
  - assert (Hs2 : same_object s s2) by exact (same_object_trans _ _ _ Hacq Ho).
    unfold vector_at.
    destruct ((0 <=? acquired_index drv s)
              && (acquired_index drv s <? Z.of_nat (length (commandBuffers s2))));
      [|right; left; do 2 eexists; split; [reflexivity|];
        split; [exact Hs2|now left]].
    unfold ret.
    set (cb := nth (Z.to_nat (acquired_index drv s)) (commandBuffers s2) VK_NULL_HANDLE).
    set (r := drv_submit drv (trace s2) cb (acquired_index drv s)).
    set (s3 := log (submitCommandBuffers cb (acquired_index drv s) r) s2).
    assert (Hs3 : same_object s s3) by apply Hs2.
    assert (Ht3 : trace s3 = trace s ++
                  acquireNextImage (acquired_status drv s) (acquired_index drv s)
                  :: d ++ [submitCommandBuffers cb (acquired_index drv s) r]).
    { unfold s3. cbn [log trace]. rewrite Ht. unfold acquired. cbn [log trace].
      now rewrite <- !app_assoc. }
    destruct (stale_result r) eqn:Hr; [|destruct (framebufferResized s3) eqn:Hfl].
    + left. rewrite after_submit_stale by now left.
      eexists. split; [reflexivity|]. split; [apply Hs3|].
      cbn [set_framebufferResized append_trace trace]. rewrite Ht3.
      rewrite <- app_assoc. eexists. reflexivity.
    + left. rewrite after_submit_stale by now right.
      eexists. split; [reflexivity|]. split; [apply Hs3|].
      cbn [set_framebufferResized append_trace trace]. rewrite Ht3.
      rewrite <- app_assoc. eexists. reflexivity.
    + rewrite after_submit_fresh by assumption.
      destruct (negb (r =? VK_SUCCESS)).
      * right. left. do 2 eexists. split; [reflexivity|].
        split; [apply Hs3|]. right. eexists. split; reflexivity.
      * right. right. eexists. split; [reflexivity|].
        split; [apply Hs3|]. split; [exact Hfl|].
        cbn [log trace]. rewrite Ht3, <- app_assoc. eexists. reflexivity.
  - right. left. exists w, s2. split; [reflexivity|].
    split; [exact (same_object_trans _ _ _ Hacq Ho)|].
    apply recordCommandBuffer_halt in Hrec.
    destruct Hrec as (_ & _ & d' & _ & _ & [[Hw _]|[Hw|Hw]]); subst w;
      [right; eexists; split; reflexivity
      |right; eexists; split; reflexivity
      |now left].
Qed.

Lemma ready_same_object (s s' : State) :
  same_object s s' -> ready s -> ready s'.
Proof.
  intros (H1 & H2 & H3 & H4 & H5) (sc & p & m & R1 & R2 & R3 & R4 & R5).
  exists sc, p, m. rewrite H1, H2, H3, H4, H5. auto.
Qed.

Lemma drawFrame_ret (drv : Driver) (fuel : nat) (s s' : State) :
  drawFrame drv fuel s = Ret tt s' ->
  (exists d, trace s' = trace s ++ d) /\
  pipelineLayout s' = pipelineLayout s /\
  (ready s -> ready s').
Proof.
  destruct (vreSwapChain s) as [sc|] eqn:Hsc;
    [|rewrite drawFrame_null by exact Hsc; discriminate].
  destruct (drawFrame_cases drv fuel s sc Hsc)
    as [(s0 & -> & Ho & d & Hd)|[(w & s1 & -> & _)|(s1 & -> & Ho & _ & d & Hd)]];
    intros H; [|discriminate|inversion H; subst s1].
  - destruct (recreateSwapChain_events drv fuel s0) as (d' & Ht & _).
    rewrite H in Ht. cbn [state_of] in Ht.
    destruct (recreateSwapChain_ret drv fuel s0 s' H)
      as (sc' & p' & H1 & H2 & H3 & H4 & H5 & H6).
    destruct Ho as (O1 & O2 & O3 & O4 & O5).
    split; [exists (d ++ d'); rewrite Ht, Hd; now rewrite app_assoc|].
    split; [congruence|].
    intros (sc0 & p0 & m0 & R1 & R2 & R3 & R4 & R5).
    rewrite O1, R1 in H6.
    exists sc', p', m0. repeat split; try congruence.
  - split; [exists d; exact Hd|]. split; [apply Ho|].
    now apply ready_same_object.
Qed.

Lemma drawFrame_no_assert (drv : Driver) (fuel : nat) (s s' : State) (a : Assertion) :
  pipelineLayout s <> VK_NULL_HANDLE ->
  drawFrame drv fuel s <> Halt (AssertFailed a) s'.
Proof.
  intros Hl. destruct (vreSwapChain s) as [sc|] eqn:Hsc;
    [|rewrite drawFrame_null by exact Hsc; discriminate].
  destruct (drawFrame_cases drv fuel s sc Hsc)
    as [(s0 & -> & Ho & _)|[(w & s1 & -> & _ & Hw)|(s1 & -> & _)]];
    intros H; [| |discriminate].
  - destruct (recreateSwapChain_events drv fuel s0) as (d' & _ & _ & _ & _ & Hm).
    rewrite H in Hm. destruct Ho as (_ & _ & _ & O4 & _). congruence.
  - inversion H; subst. destruct Hw as [Hw|(e & Hw & _)]; discriminate.
Qed.

(** ** The constructor *)

Lemma loadModels_spec (drv : Driver) (s : State) :
  match loadModels drv s with
  | Ret _ s' =>
      exists m, s' = set_vreModel (Some m) (log (new_VreModel triangle (Some m)) s)
  | Halt w s' =>
      w = Thrown VreModel_threw /\ s' = log (new_VreModel triangle None) s
  end.
Proof.
  unfold loadModels, bind, make_VreModel, modify.
  destruct (drv_newModel drv (trace s) triangle) as [m|]; [|split; reflexivity].
  exists m. reflexivity.
Qed.

Lemma createPipelineLayout_spec (drv : Driver) (s : State) :
  match createPipelineLayout drv s with
  | Ret _ s' =>
      fst (drv_createPipelineLayout drv (trace s)) = VK_SUCCESS /\
      s' = log (vkCreatePipelineLayout VK_SUCCESS
                  (snd (drv_createPipelineLayout drv (trace s))))
             (set_pipelineLayout (snd (drv_createPipelineLayout drv (trace s))) s)
  | Halt w s' =>
      fst (drv_createPipelineLayout drv (trace s)) <> VK_SUCCESS /\
      w = Thrown failed_to_create_pipeline_layout
  end.
Proof.
  unfold createPipelineLayout.
  destruct (Z.eqb_spec (fst (drv_createPipelineLayout drv (trace s))) VK_SUCCESS)
    as [H|H]; cbn [negb].
  - split; [exact H|]. now rewrite H.
  - split; [exact H|reflexivity].
Qed.

(** X14: a constructor that returns leaves the object ready for the
    frame loop: model, surface and pipeline set, a pipeline layout, and
    one command buffer per image of the surface.  It has created the
    model, then the pipeline layout, then gone through one recreation,
    and last allocated the command buffers, for the image count of the
    surface it built. *)
Theorem VreApp_ctor_ready (drv : Driver) (fuel : nat) (s s' : State) :
  VreApp_ctor drv fuel s = Ret tt s' ->
  ready s' /\
  exists m h sc d,
    vreModel s' = Some m /\ pipelineLayout s' = h /\ vreSwapChain s' = Some sc /\
    added s s' =
    new_VreModel triangle (Some m) :: vkCreatePipelineLayout VK_SUCCESS h
    :: d ++ [vkAllocateCommandBuffers (to_uint32 (Z.of_nat (imageCount sc)))
                                      VK_SUCCESS] /\
    Forall (fun ev => is_recreation_event ev = true) d /\
    length (constructions d) = 1%nat.
Proof.
  unfold VreApp_ctor, bind. intros H.
  pose proof (loadModels_spec drv s) as L.
  destruct (loadModels drv s) as [[] s1|w s1]; [|discriminate].
  destruct L as (m & ->).
  match type of H with context [createPipelineLayout drv ?x] =>
    pose proof (createPipelineLayout_spec drv x) as P;
    destruct (createPipelineLayout drv x) as [[] s2|w s2]; [|discriminate]
  end.
  destruct P as (_ & Hs2).
  assert (Hm2 : vreModel s2 = Some m) by (rewrite Hs2; reflexivity).
  assert (Ht2 : trace s2 = trace s ++ [new_VreModel triangle (Some m);
                             vkCreatePipelineLayout VK_SUCCESS (pipelineLayout s2)]).
  { rewrite Hs2. unfold log, set_pipelineLayout, set_vreModel.
    cbn [trace pipelineLayout]. now rewrite <- app_assoc. }
  clear Hs2.
  destruct (recreateSwapChain_events drv fuel s2) as (d & Ht & Hd & _ & _ & Hm).
  destruct (recreateSwapChain drv fuel s2) as [[] s3|w s3] eqn:R; [|discriminate].
  cbn [state_of] in Ht. destruct Hm as [Hc _].
  apply recreateSwapChain_ret in R.
  destruct R as (sc & p & R1 & R2 & R3 & R4 & R5 & _).
  pose proof (createCommandBuffers_spec drv s3) as C. rewrite R1 in C.
  destruct C as (r & Ca & Cl & A1 & A2 & A3 & A4 & Cr).
  destruct (createCommandBuffers drv s3) as [[] s4|w s4]; [|discriminate].
  inversion H; subst s4; clear H. cbn [state_of] in *. subst r.
  split.
  - exists sc, p, m. repeat split; congruence.
  - exists m, (pipelineLayout s'), sc, d. repeat split; try congruence.
    apply added_app. rewrite Ca, Ht, Ht2, A4, R4. now rewrite <- !app_assoc.
Qed.

Lemma VreApp_ctor_ready_witness :
  ready (state_of (VreApp_ctor quiet 0 fresh)).
Proof.
  apply (VreApp_ctor_ready quiet 0 fresh). vm_compute. reflexivity.
Defined.

(** X15: a frame that returns keeps the object ready for the next one:
    the pointers stay set, the pipeline layout is the same handle, and
    the command buffers still match the images of the surface, whether
    or not the frame went through a recreation. *)
Theorem drawFrame_keeps_ready (drv : Driver) (fuel : nat) (s s' : State) :
  ready s ->
  drawFrame drv fuel s = Ret tt s' ->
  ready s' /\ pipelineLayout s' = pipelineLayout s /\ vreModel s' = vreModel s.
Proof.
  intros R H. destruct (drawFrame_ret drv fuel s s' H) as (_ & Hl & Hr).
  split; [now apply Hr|]. split; [exact Hl|].
  destruct R as (sc & p & m & R1 & _).
  destruct (drawFrame_cases drv fuel s sc R1)
    as [(s0 & E & Ho & _)|[(w & s1 & E & _)|(s1 & E & Ho & _)]];
    rewrite E in H; [|discriminate|inversion H; subst s1; apply Ho].
  apply recreateSwapChain_ret in H.
  destruct H as (sc' & p' & _ & _ & H3 & _).
  destruct Ho as (_ & _ & O3 & _). congruence.
Qed.

Lemma drawFrame_keeps_ready_witness :
  ready (state_of (drawFrame (stale_acquire two_images) 0 running)).
Proof.
  apply (drawFrame_keeps_ready (stale_acquire two_images) 0 running).
  - exists (surface (mkExtent 640 480) 3), (mkPipeline 51 21 7), (mkModel triangle 11).
    repeat split. discriminate.
  - vm_compute. reflexivity.
Defined.

(** ** [run] and the whole program *)

Lemma run_ready (drv : Driver) (fuel : nat) :
  forall (frames : nat) (s : State),
    ready s ->
    match run drv frames fuel s with
    | Ret _ s' =>
        ready s' /\
        exists t, trace s' = trace s ++ t ++ [shoudClose true; vkDeviceWaitIdle]
    | Halt (AssertFailed _) _ => False
    | Halt _ _ => True
    end.
Proof.
  induction frames as [|frames IH]; intros s R; cbn [run];
    unfold bind, window_shoudClose, emit, halt;
    destruct (drv_shouldClose drv (trace s)) eqn:Hc.
  - split; [revert R; apply ready_same_object; repeat split|].
    exists []. cbn [log trace app]. now rewrite <- app_assoc.
  - exact I.
  - split; [revert R; apply ready_same_object; repeat split|].
    exists []. cbn [log trace app]. now rewrite <- app_assoc.
  - unfold process_events.
    match goal with |- context [drawFrame drv fuel ?x] =>
      set (s2 := x);
      assert (R2 : ready s2) by (revert R; apply ready_same_object; repeat split);
      assert (T2 : trace s2 = trace s ++ [shoudClose false; glfwPollEvents])
        by (unfold s2; cbn [log set_framebufferResized trace];
            now rewrite <- app_assoc)
    end.
    destruct (drawFrame drv fuel s2) as [[] s3|w s3] eqn:D.
    + destruct (drawFrame_ret drv fuel s2 s3 D) as ((d & Hd) & _ & R3).
      specialize (IH s3 (R3 R2)).
      destruct (run drv frames fuel s3) as [[] s4|[e|a| |] s4]; try exact IH.
      destruct IH as (R4 & t & Ht). split; [exact R4|].
      exists ([shoudClose false; glfwPollEvents] ++ d ++ t).
      rewrite Ht, Hd, T2. now rewrite <- !app_assoc.
    + destruct w as [e|a| |]; try exact I.
      destruct R2 as (sc & p & m & _ & _ & _ & Hl & _).
      exact (drawFrame_no_assert drv fuel s2 s3 a Hl D).
Qed.

Lemma VreApp_ctor_no_assert (drv : Driver) (fuel : nat) (s s' : State)
      (a : Assertion) :
  layout_contract drv ->
  VreApp_ctor drv fuel s <> Halt (AssertFailed a) s'.
Proof.
  intros Hc. unfold VreApp_ctor, bind. intros H.
  pose proof (loadModels_spec drv s) as L.
  destruct (loadModels drv s) as [[] s1|w s1];
    [|destruct L as [-> _]; discriminate].
  clear L.
  pose proof (createPipelineLayout_spec drv s1) as P.
  destruct (createPipelineLayout drv s1) as [[] s2|w s2];
    [|destruct P as [_ ->]; discriminate].
  destruct P as (Hok & Hs2).
  assert (Hl : pipelineLayout s2 <> VK_NULL_HANDLE).
  { rewrite Hs2. cbn [log set_pipelineLayout pipelineLayout]. now apply Hc. }
  destruct (recreateSwapChain_events drv fuel s2) as (d & _ & _ & _ & _ & Hm).
  destruct (recreateSwapChain drv fuel s2) as [[] s3|w s3] eqn:R.
  - apply recreateSwapChain_ret in R. destruct R as (sc & p & R1 & _).
    pose proof (createCommandBuffers_spec drv s3) as C. rewrite R1 in C.
    destruct C as (r & _ & _ & _ & _ & _ & _ & Cr).
    destruct (createCommandBuffers drv s3) as [[] s4|w s4]; [discriminate|].
    destruct Cr as [_ ->]. discriminate.
  - inversion H; subst. contradiction.
Qed.

(** X16: as long as [vkCreatePipelineLayout] hands out a handle when it
    succeeds, no run of the program (constructor, then the frame loop)
    fails an assertion of [createPipeline]; and a run that returns has
    ended with the close request followed by the wait for the device. *)
Theorem program_asserts_hold (drv : Driver) (frames fuel : nat) :
  layout_contract drv ->
  match program drv frames fuel with
  | Ret _ s' =>
      exists t, trace s' = t ++ [shoudClose true; vkDeviceWaitIdle]
  | Halt (AssertFailed _) _ => False
  | Halt _ _ => True
  end.
Proof.
  intros Hc. unfold program, bind.
  destruct (VreApp_ctor drv fuel fresh) as [[] s1|w s1] eqn:C.
  - apply VreApp_ctor_ready in C. destruct C as [R _].
    pose proof (run_ready drv fuel frames s1 R) as H.
    destruct (run drv frames fuel s1) as [[] s2|[e|a| |] s2]; try exact H.
    destruct H as (_ & t & Ht). exists (trace s1 ++ t).
    rewrite Ht. now rewrite <- app_assoc.
  - destruct w as [e|a| |]; try exact I.
    exact (VreApp_ctor_no_assert drv fuel fresh s1 a Hc C).
Qed.

Lemma program_asserts_hold_witness :
  exists t, trace (state_of (program (closing_after 2 quiet) 5 0))
            = t ++ [shoudClose true; vkDeviceWaitIdle].
Proof.
  assert (Hc : layout_contract (closing_after 2 quiet))
    by (intros h _; discriminate).
  pose proof (program_asserts_hold (closing_after 2 quiet) 5 0 Hc) as H.
  assert (E : program (closing_after 2 quiet) 5 0
              = Ret tt (state_of (program (closing_after 2 quiet) 5 0)))
    by (vm_compute; reflexivity).
  rewrite E in H. exact H.
Defined.

(** ** Summaries *)

(** X4: whatever the environment does, [recreateSwapChain] talks only
    to the window and, after the loop, to the device: it records,
    submits and acquires nothing.  It constructs at most one surface,
    and never at an extent of zero area.  It dereferences no null
    pointer and indexes nothing out of range; the exceptions it lets
    through are those of the surface, the allocation and the pipeline;
    and it fails an assertion only if the pipeline layout is null.  A
    call that returns has waited for the device once and constructed
    exactly one surface. *)
Theorem recreateSwapChain_outcomes (drv : Driver) (fuel : nat) (s : State) :
  Forall (fun ev => is_recreation_event ev = true)
         (added s (state_of (recreateSwapChain drv fuel s))) /\
  count is_frame_event (added s (state_of (recreateSwapChain drv fuel s))) = 0%nat /\
  count is_acquire (added s (state_of (recreateSwapChain drv fuel s))) = 0%nat /\
  Forall (fun e => zero_area e = false)
         (constructions (added s (state_of (recreateSwapChain drv fuel s)))) /\
  (length (constructions (added s (state_of (recreateSwapChain drv fuel s)))) <= 1)%nat /\
  match recreateSwapChain drv fuel s with
  | Ret _ s' =>
      length (constructions (added s s')) = 1%nat /\
      count is_idle (added s s') = 1%nat
  | Halt (Thrown err) _ => recreation_error err = true
  | Halt (AssertFailed _) _ => pipelineLayout s = VK_NULL_HANDLE
  | Halt Undefined _ => False
  | Halt Blocked _ => True
  end.
Proof.
  destruct (recreateSwapChain_events drv fuel s) as (d & Ht & Hd & Hz & Hl & Hm).
  rewrite (added_app _ _ d Ht).
  split; [exact Hd|]. split; [now apply recreation_count_frame|].
  split.
  { unfold count.
    rewrite (filter_none is_acquire is_recreation_event d); [reflexivity| |exact Hd].
    intros ev; destruct ev; cbv; intro; congruence. }
  split; [exact Hz|]. split; [exact Hl|].
  destruct (recreateSwapChain drv fuel s) as [[] s'|[e|a| |] s']; try exact Hm.
  cbn [state_of] in Ht. now rewrite (added_app _ _ d Ht).
Qed.

(** X5: a recording that returns has logged, into the command buffer of
    the image and in this order, a successful begin, the seven commands
    of the frame and a successful end.  The commands are those of
    [frame_commands] for the render pass and the extent of the surface,
    the framebuffer of the image, the pipeline and the model: the dark
    grey clear colour and the depth clear, the viewport and the scissor
    over the whole extent, the binding of the pipeline and of the model
    and the draw.  Nothing else of the state has changed. *)
Theorem recordCommandBuffer_records (drv : Driver) (i : Z) (s s' : State) :
  recordCommandBuffer drv i s = Ret tt s' ->
  exists sc p m,
    vreSwapChain s = Some sc /\ vrePipeline s = Some p /\ vreModel s = Some m /\
    0 <= i < Z.of_nat (length (commandBuffers s)) /\
    0 <= i < Z.of_nat (length (swapChainFramebuffers sc)) /\
    same_object s s' /\ framebufferResized s' = framebufferResized s /\
    added s s' =
    recording (nth (Z.to_nat i) (commandBuffers s) VK_NULL_HANDLE)
      (frame_commands (getRenderPass sc)
         (nth (Z.to_nat i) (swapChainFramebuffers sc) VK_NULL_HANDLE)
         (getSwapChainExtent sc) p m) /\
    commands (added s s') =
    [ vkCmdBeginRenderPass (getRenderPass sc)
        (nth (Z.to_nat i) (swapChainFramebuffers sc) VK_NULL_HANDLE)
        (mkRect (mkOffset 0 0) (getSwapChainExtent sc))
        [ClearColor f_0_1 f_0_1 f_0_1 f_1_0; ClearDepthStencil f_1_0 0]
        VK_SUBPASS_CONTENTS_INLINE;
      vkCmdSetViewport 0 1
        (mkViewport f_0_0 f_0_0
           (float_of_uint (width (getSwapChainExtent sc)))
           (float_of_uint (height (getSwapChainExtent sc))) f_0_0 f_1_0);
      vkCmdSetScissor 0 1 (mkRect (mkOffset 0 0) (getSwapChainExtent sc));
      pipeline_bind p; model_bind m; model_draw m; vkCmdEndRenderPass ].
Proof.
  intros H. apply recordCommandBuffer_ret in H.
  destruct H as (sc & p & m & H1 & H2 & H3 & H4 & H5 & ->).
  exists sc, p, m. repeat (split; [assumption|]).
  split; [repeat split|]. split; [reflexivity|].
  match goal with |- added s (append_trace ?d s) = _ /\ _ =>
    assert (Ha : added s (append_trace d s) = d) by (apply added_app; reflexivity)
  end.
  rewrite Ha. split; reflexivity.
Qed.

Lemma recordCommandBuffer_records_witness :
  commands (added running (state_of (recordCommandBuffer quiet 1 running)))
  = frame_commands 21 42 (mkExtent 640 480) (mkPipeline 51 21 7) (mkModel triangle 11).
Proof.
  destruct (recordCommandBuffer_records quiet 1 running
              (state_of (recordCommandBuffer quiet 1 running)))
    as (sc & p & m & Hsc & Hp & Hm & _ & _ & _ & _ & _ & Hc).
  - vm_compute. reflexivity.
  - rewrite Hc. inversion Hsc. inversion Hp. inversion Hm. reflexivity.
Defined.

(** X6: a recording that does not return has left the object as it was
    and has logged recording calls only.  It has stopped in one of
    three ways: the begin failed, and then no command was recorded and
    the begin error is thrown; or the end failed and the recording
    error is thrown; or it indexed out of range or through a null
    pointer.  With an index outside the command buffers it stops
    before any call is made. *)
Theorem recordCommandBuffer_stops (drv : Driver) (i : Z) (s : State) :
  (forall w s',
      recordCommandBuffer drv i s = Halt w s' ->
      same_object s s' /\
      Forall (fun ev => is_recording ev = true) (added s s') /\
      (w = Thrown failed_to_begin_recording_command_buffer /\
       commands (added s s') = [] \/
       w = Thrown failed_to_record_command_buffer \/
       w = Undefined)) /\
  (~ 0 <= i < Z.of_nat (length (commandBuffers s)) ->
   recordCommandBuffer drv i s = Halt Undefined s).
Proof.
  split.
  - intros w s' H. apply recordCommandBuffer_halt in H.
    destruct H as (Ho & _ & d & Ht & Hd & Hw).
    rewrite (added_app _ _ d Ht). auto.
  - intros Hi. unfold recordCommandBuffer, bind, get, vector_at.
    destruct (Z.leb_spec 0 i); destruct (Z.ltb_spec i (Z.of_nat (length (commandBuffers s))));
      try reflexivity; lia.
Qed.

(** X17: after an acquisition that let the frame go on and a recording
    that returned, [drawFrame] throws the presentation error exactly
    when the submission reports neither success nor out of date nor
    suboptimal and no resize is pending.  In particular a submission
    that fails while a resize is pending is not reported: the frame
    goes into the recreation instead. *)
Theorem drawFrame_present_failure (drv : Driver) (fuel : nat) (s s2 : State)
        (sc : VreSwapChain) :
  vreSwapChain s = Some sc ->
  acquire_ok (acquired_status drv s) = true ->
  recordCommandBuffer drv (int_of_uint32 (acquired_index drv s)) (acquired drv s)
  = Ret tt s2 ->
  ((exists s', drawFrame drv fuel s
               = Halt (Thrown failed_to_present_swap_chain_image) s') <->
   (stale_result (submitted drv s s2) = false /\
    framebufferResized s = false /\
    submitted drv s s2 <> VK_SUCCESS)).
Proof.
  intros Hsc Hok Hrec.
  destruct (drawFrame_recorded drv fuel s s2 sc Hsc Hok Hrec)
    as (Hd & p & m & _ & _ & _ & _ & Hs2).
  rewrite Hd.
  assert (Hfl : framebufferResized s2 = framebufferResized s)
    by (rewrite Hs2; reflexivity).
  set (r := submitted drv s s2) in *.
  set (s3 := log (submitCommandBuffers (frame_buffer drv s) (acquired_index drv s) r) s2).
  assert (Hfl3 : framebufferResized s3 = framebufferResized s) by exact Hfl.
  assert (Hno : forall s0 s', recreateSwapChain drv fuel s0
                    <> Halt (Thrown failed_to_present_swap_chain_image) s').
  { intros s0 s' H.
    destruct (recreateSwapChain_events drv fuel s0) as (d & _ & _ & _ & _ & Hm).
    rewrite H in Hm. discriminate. }
  destruct (stale_result r) eqn:Hr; [|destruct (framebufferResized s) eqn:Hf].
  - rewrite after_submit_stale by now left.
    split; [intros [s' H]; now apply Hno in H|intros (H & _); discriminate].
  - rewrite after_submit_stale by (right; congruence).
    split; [intros [s' H]; now apply Hno in H|intros (_ & H & _); discriminate].
  - rewrite after_submit_fresh by congruence.
    destruct (Z.eqb_spec r VK_SUCCESS) as [E|E]; cbn [negb].
    + split; [intros [s' H]; discriminate|intros (_ & _ & H); contradiction].
    + split; [auto|intros _; eexists; reflexivity].
Qed.

Lemma drawFrame_present_failure_witness :
  (exists s', drawFrame (lost_submit quiet) 0 running
              = Halt (Thrown failed_to_present_swap_chain_image) s') /\
  ~ (exists s', drawFrame (lost_submit quiet) 0 resized
                = Halt (Thrown failed_to_present_swap_chain_image) s').
Proof.
  split.
  - apply (drawFrame_present_failure (lost_submit quiet) 0 running
             (state_of (recordCommandBuffer (lost_submit quiet) 0
                          (acquired (lost_submit quiet) running)))
             (surface (mkExtent 640 480) 3)).
    + reflexivity.
    + reflexivity.
    + vm_compute. reflexivity.
    + repeat split. vm_compute. discriminate.
  - intros H.
    apply (drawFrame_present_failure (lost_submit quiet) 0 resized
             (state_of (recordCommandBuffer (lost_submit quiet) 0
                          (acquired (lost_submit quiet) resized)))
             (surface (mkExtent 640 480) 3)) in H.
    + destruct H as (_ & H & _). discriminate H.
    + reflexivity.
    + reflexivity.
    + vm_compute. reflexivity.
Defined.

(** X7: above 2^24 the round trip through [float] loses buffers: for
    every odd size from 2^24 up to 2^25 the count handed to
    [vkFreeCommandBuffers] is not the size of the set. *)
Theorem free_count_lossy (n : Z) :
  2 ^ 24 <= n < 2 ^ 25 -> Z.odd n = true -> free_count n <> Some n.
Proof.
  intros Hn Hodd. unfold free_count, float_of_uint.
  assert (Hl : Z.log2 n = 24) by (apply Z.log2_unique; lia).
  rewrite Hl. change (Z.max 0 (24 - 23)) with 1. change (2 ^ 1) with 2.
  assert (Hr : n mod 2 = 1) by (rewrite Zmod_odd, Hodd; reflexivity).
  rewrite Hr. cbn [Z.mul Z.ltb Z.compare Pos.mul Pos.compare Pos.compare_cont].
  set (q' := if Z.even (n / 2) then n / 2 else n / 2 + 1).
  unfold uint32_of_float, inject_Z. cbn [Qnum Qden]. rewrite Z.quot_1_r.
  destruct ((0 <=? q' * 2) && (q' * 2 <? UINT32_MOD)); [|discriminate].
  intros H. inversion H as [E].
  rewrite <- E, Z.odd_mul in Hodd. rewrite andb_false_r in Hodd. discriminate.
Qed.

Lemma free_count_lossy_witness : free_count 16777217 <> Some 16777217.
Proof. apply (free_count_lossy 16777217); [lia | reflexivity]. Defined.

Lemma recordCommandBuffer_stops_witness :
  recordCommandBuffer quiet 3 running = Halt Undefined running.
Proof.
  apply (recordCommandBuffer_stops quiet 3 running). simpl. lia.
Defined.
